(** * neura: the plan-then-execute workflow

    A shallow embedding of [neura/agents/base.py], [neura/agents/planner.py],
    [neura/agents/executor.py], [neura/core/graph.py] and
    [neura/tools/web_search.py], and the properties of the workflow router,
    the planner, the executor's step loop, the tool registries and the search
    tool.

    Python objects are dynamically typed, so plan data decoded from text is
    kept as a JSON value and every dictionary access, iteration and hashing
    step is a fallible operation, as it is at run time. *)

From stdpp Require Import gmap strings list fin_maps pretty.
From Stdlib Require Import ZArith Ascii SpecFloat.

Local Open Scope Z_scope.
Local Open Scope string_scope.
Local Open Scope list_scope.

(** ** Python values *)

Set Warnings "-register-all".

(** What [json.loads] can produce.  A [float] is a double, kept as its sign,
    mantissa and exponent. *)
Inductive value : Type :=
  | VNone
  | VBool (b : bool)
  | VInt (z : Z)
  | VFloat (x : spec_float)
  | VStr (s : string)
  | VList (l : list value)
  | VDict (d : list (string * value)).

(** Instances of [Exception].  [KeyError] keeps the missing key; the text of
    the errors raised by the interpreter itself is indicative. *)
Inductive exn : Type :=
  | ValueError (msg : string)
  | RuntimeError (msg : string)
  | KeyError (k : string)
  | IndexError (msg : string)
  | TypeError (msg : string)
  | AttributeError (msg : string)
  | Failure (msg : string).

(** The outcome of an expression or call: a value, or a raised exception. *)
Inductive result (A : Type) : Type :=
  | Ok (a : A)
  | Raise (e : exn).
Arguments Ok {A} a.
Arguments Raise {A} e.

#[global] Instance result_ret : MRet result := fun A a => Ok a.
#[global] Instance result_bind : MBind result := fun A B f r =>
  match r with
  | Ok a => f a
  | Raise e => Raise e
  end.

#[global] Instance spec_float_eq_dec : EqDecision spec_float.
Proof. solve_decision. Defined.

(** Hashable values as dictionary keys.  [True], [1] and [1.0] are the same
    key: a float that is an integer is kept as that integer.  The [NaN] of
    the decoder is one object, and so a key like any other. *)
Inductive key : Type :=
  | KNone
  | KInt (z : Z)
  | KFloat (x : spec_float)
  | KStr (s : string).

#[global] Instance key_eq_dec : EqDecision key.
Proof. solve_decision. Defined.

#[global] Instance key_countable : Countable key.
Proof.
  refine (inj_countable'
    (fun k => match k with
              | KNone => inl ()
              | KInt z => inr (inl z)
              | KStr s => inr (inr (inl s))
              | KFloat (S754_zero s) => inr (inr (inr (inl (false, s))))
              | KFloat (S754_infinity s) => inr (inr (inr (inl (true, s))))
              | KFloat S754_nan => inr (inr (inr (inr (inl ()))))
              | KFloat (S754_finite s m e) => inr (inr (inr (inr (inr (s, m, e)))))
              end)
    (fun x => match x with
              | inl _ => KNone
              | inr (inl z) => KInt z
              | inr (inr (inl s)) => KStr s
              | inr (inr (inr (inl (false, s)))) => KFloat (S754_zero s)
              | inr (inr (inr (inl (true, s)))) => KFloat (S754_infinity s)
              | inr (inr (inr (inr (inl _)))) => KFloat S754_nan
              | inr (inr (inr (inr (inr (s, m, e))))) => KFloat (S754_finite s m e)
              end) _).
  intros [| |[]|]; reflexivity.
Defined.

(** A value held in [state.context]: a plain value, or the executor's own
    [_step_results] dictionary, which [process] stores by reference. *)
Inductive cval : Type :=
  | CV (v : value)
  | CStepResults.

Definition nl : string := String "010"%char EmptyString.
Definition dq : string := String "034"%char EmptyString.

Definition type_name (v : value) : string :=
  match v with
  | VNone => "NoneType"
  | VBool _ => "bool"
  | VInt _ => "int"
  | VFloat _ => "float"
  | VStr _ => "str"
  | VList _ => "list"
  | VDict _ => "dict"
  end.

(** [bool(v)] *)
Definition truthy (v : value) : bool :=
  match v with
  | VNone => false
  | VBool b => b
  | VInt z => negb (Z.eqb z 0)
  | VFloat x => match x with S754_zero _ => false | _ => true end
  | VStr s => negb (String.eqb s "")
  | VList l => match l with [] => false | _ => true end
  | VDict d => match d with [] => false | _ => true end
  end.

(** Lookup in a decoded JSON object. *)
Fixpoint dict_get (d : list (string * value)) (k : string) : option value :=
  match d with
  | [] => None
  | (k', v) :: d' => if String.eqb k' k then Some v else dict_get d' k
  end.

(** [v[k]] for a string [k] *)
Definition py_getitem (v : value) (k : string) : result value :=
  match v with
  | VDict d =>
      match dict_get d k with
      | Some x => Ok x
      | None => Raise (KeyError k)
      end
  | VList _ => Raise (TypeError "list indices must be integers or slices, not str")
  | VStr _ => Raise (TypeError "string indices must be integers, not 'str'")
  | _ => Raise (TypeError ("'" +:+ type_name v +:+ "' object is not subscriptable"))
  end.

(** [v.get(k, dflt)] *)
Definition py_get (v : value) (k : string) (dflt : value) : result value :=
  match v with
  | VDict d => Ok (default dflt (dict_get d k))
  | _ => Raise (AttributeError ("'" +:+ type_name v +:+ "' object has no attribute 'get'"))
  end.

(** Whether a byte continues a UTF-8 sequence. *)
Definition continuation (c : ascii) : bool :=
  let n := nat_of_ascii c in
  bool_decide (128 ≤ n < 192)%nat.

(** The characters of a text: each byte that starts a UTF-8 sequence, with
    the bytes that continue it. *)
Fixpoint code_points (s : string) : list string :=
  match s with
  | EmptyString => []
  | String c s' =>
      let continued :=
        match s' with
        | String c' _ => continuation c'
        | EmptyString => false
        end in
      match code_points s' with
      | p :: ps =>
          if continued then String c p :: ps else String c EmptyString :: p :: ps
      | [] => [String c EmptyString]
      end
  end.

(** The characters of a text, one string each. *)
Definition chars (s : string) : list value := VStr <$> code_points s.

(** The elements [for x in v] goes through. *)
Definition py_iter (v : value) : result (list value) :=
  match v with
  | VList l => Ok l
  | VDict d => Ok (map (fun kv => VStr (fst kv)) d)
  | VStr s => Ok (chars s)
  | _ => Raise (TypeError ("'" +:+ type_name v +:+ "' object is not iterable"))
  end.

(** The integer a float is equal to, when there is one. *)
Definition float_integer (x : spec_float) : option Z :=
  match x with
  | S754_zero _ => Some 0
  | S754_finite s m e =>
      let sign (z : Z) := if s then - z else z in
      if Z.leb 0 e then Some (sign (Zpos m * 2 ^ e))
      else if Z.eqb (Zpos m mod 2 ^ (- e)) 0 then Some (sign (Zpos m / 2 ^ (- e)))
      else None
  | _ => None
  end.

(** Hashing, as done by [x in d], [d.get(x)] and [d[x] = _]. *)
Definition hash_key (v : value) : result key :=
  match v with
  | VNone => Ok KNone
  | VBool b => Ok (KInt (if b then 1 else 0))
  | VInt z => Ok (KInt z)
  | VFloat x =>
      match float_integer x with
      | Some z => Ok (KInt z)
      | None => Ok (KFloat x)
      end
  | VStr s => Ok (KStr s)
  | _ => Raise (TypeError ("unhashable type: '" +:+ type_name v +:+ "'"))
  end.

(** The mapping that a call unpacks as its keyword arguments. *)
Definition py_kwargs (v : value) : result (list (string * value)) :=
  match v with
  | VDict d => Ok d
  | _ => Raise (TypeError ("argument after ** must be a mapping, not " +:+ type_name v))
  end.

(** ** Agents

    What lies outside the workflow is collected in a class: the JSON codec,
    [repr], the text of the two prompts and the language model.  The outside
    world the model and the tools act on is threaded as [world].

    A prompt is its template filled in by [str.format], with the tools, the
    cached results, the step and the context written out by [json.dumps], and
    any of these can raise.  In the source both templates hold the braces of
    their JSON example undoubled, on which [str.format] raises a [KeyError]
    before the model is asked.  The properties of the control flow are stated
    for every collaborator, so for every prompt function; the prompts of the
    source are modelled below, and every run is evaluated with them. *)

(** [langchain.tools.Tool]: a name, a description, and the call of the tool
    on keyword arguments. *)
Record Tool (world : Type) : Type := {
  name : string;
  description : string;
  call : world -> list (string * value) -> world * result value
}.
Arguments name {world} _.
Arguments description {world} _.
Arguments call {world} _ _ _.

(** A prompt: the system message and the human message, by their contents. *)
Record Prompt : Type := {
  system : string;
  human : string
}.

Class Collaborators (world : Type) : Type := {
  (** [json.loads] and [json.dumps(_, indent=2)] *)
  json_loads : string -> result value;
  json_dumps : value -> result string;
  (** [repr] *)
  py_repr : value -> string;
  (** [_create_planning_prompt(task)], from the planner's tools and the task *)
  create_planning_prompt : list (Tool world) -> value -> result Prompt;
  (** [_create_execution_prompt(step, context)], from the executor's tools and
      cached results, the step and the context *)
  create_execution_prompt :
    gmap string (Tool world) -> gmap key value -> value -> gmap string cval ->
    result Prompt;
  (** [self.llm.invoke(prompt).content] *)
  llm_invoke : world -> Prompt -> world * result string
}.

Section Agents.

Context `{Collaborators world}.

Local Abbreviation Tool := (Tool world).

(** [str(v)] *)
Definition py_str (v : value) : string :=
  match v with
  | VStr s => s
  | _ => py_repr v
  end.

(** [str(e)] *)
Definition exn_str (e : exn) : string :=
  match e with
  | ValueError msg => msg
  | RuntimeError msg => msg
  | KeyError k => py_repr (VStr k)
  | IndexError msg => msg
  | TypeError msg => msg
  | AttributeError msg => msg
  | Failure msg => msg
  end.

(** *** base.py *)

Record AgentState : Type := {
  messages : list (gmap string value);
  memory : gmap string value;
  context : gmap string cval
}.

Definition assistant_message (content : string) : gmap string value :=
  <["content" := VStr content]> {["role" := VStr "assistant"]}.

(** A proposal call: the prompt is built, then the model is asked. *)
Definition propose (w : world) (prompt : result Prompt) : world * result string :=
  match prompt with
  | Ok p => llm_invoke w p
  | Raise e => (w, Raise e)
  end.

(** *** planner.py *)

Record PlannerAgent : Type := {
  planner_initialized : bool;
  planner_tools : list Tool
}.

Definition PlannerAgent_init : PlannerAgent :=
  {| planner_initialized := false; planner_tools := [] |}.

Definition planner_add_tool (self : PlannerAgent) (tool : Tool) : PlannerAgent :=
  {| planner_initialized := planner_initialized self;
     planner_tools := planner_tools self ++ [tool] |}.

Definition planner_initialize (self : PlannerAgent) : PlannerAgent :=
  {| planner_initialized := true; planner_tools := planner_tools self |}.

Definition planner_process (w : world) (self : PlannerAgent) (state : AgentState)
  : world * PlannerAgent * result AgentState :=
  let self := planner_initialize self in
  match last (messages state) with
  | None => (w, self, Ok state)
  | Some last_message =>
      let task := default (VStr "") (last_message !! "content") in
      match propose w (create_planning_prompt (planner_tools self) task) with
      | (w', Raise e) => (w', self, Raise e)
      | (w', Ok content) =>
          (w', self,
           Ok {| messages := messages state ++
                   [assistant_message ("Created execution plan:" +:+ nl +:+ content)];
                 memory := memory state;
                 context := <["plan" := CV (VStr content)]> (context state) |})
      end
  end.

(** *** executor.py *)

Record ExecutorAgent : Type := {
  executor_initialized : bool;
  executor_tools : gmap string Tool;
  step_results : gmap key value
}.

Definition ExecutorAgent_init : ExecutorAgent :=
  {| executor_initialized := false; executor_tools := ∅; step_results := ∅ |}.

Definition executor_add_tool (self : ExecutorAgent) (tool : Tool) : ExecutorAgent :=
  {| executor_initialized := executor_initialized self;
     executor_tools := <[name tool := tool]> (executor_tools self);
     step_results := step_results self |}.

Definition executor_initialize (self : ExecutorAgent) : ExecutorAgent :=
  {| executor_initialized := true;
     executor_tools := executor_tools self;
     step_results := step_results self |}.

(** The agent after its [_step_results] dictionary has been updated in place. *)
Definition set_step_results (self : ExecutorAgent) (results : gmap key value)
  : ExecutorAgent :=
  {| executor_initialized := executor_initialized self;
     executor_tools := executor_tools self;
     step_results := results |}.

(** [self._tools.get(x)]: the argument is hashed, and only a string can be a
    registered name. *)
Definition tools_get (tools : gmap string Tool) (x : value) : result (option Tool) :=
  k ← hash_key x;
  mret (match k with
        | KStr n => tools !! n
        | _ => None
        end).

Definition execute_step (w : world) (tools : gmap string Tool)
    (results : gmap key value) (step : value) (ctx : gmap string cval)
  : world * result value :=
  match propose w (create_execution_prompt tools results step ctx) with
  | (w1, Raise e) => (w1, Raise e)
  | (w1, Ok content) =>
      match
        execution_plan ← json_loads content;
        tool_name ← py_getitem execution_plan "tool";
        tool ← tools_get tools tool_name;
        mret (execution_plan, tool_name, tool)
      with
      | Raise e => (w1, Raise e)
      | Ok (execution_plan, tool_name, None) =>
          (w1, Raise (ValueError ("Tool " +:+ py_str tool_name +:+ " not found")))
      | Ok (execution_plan, tool_name, Some tool) =>
          let wrap (w' : world) (e : exn) : world * result value :=
            match py_getitem step "id" with
            | Ok step_id =>
                (w', Raise (RuntimeError ("Error executing step " +:+ py_str step_id
                                          +:+ ": " +:+ exn_str e)))
            | Raise e' => (w', Raise e')
            end in
          match py_getitem execution_plan "parameters" ≫= py_kwargs with
          | Raise e => wrap w1 e
          | Ok kwargs =>
              match call tool w1 kwargs with
              | (w2, Ok r) => (w2, Ok r)
              | (w2, Raise e) => wrap w2 e
              end
          end
      end
  end.

Definition executed_message (step_id : value) (text : string) : gmap string value :=
  assistant_message ("Executed step " +:+ py_str step_id +:+ ":" +:+ nl +:+ text).

Definition error_message (e : exn) : gmap string value :=
  assistant_message ("Error during execution: " +:+ exn_str e).

(** The inner loop [for dep in dependencies]. *)
Fixpoint check_dependencies (results : gmap key value) (dependencies : list value)
  : result unit :=
  match dependencies with
  | [] => Ok ()
  | dep :: rest =>
      k ← hash_key dep;
      match results !! k with
      | None => Raise (ValueError ("Dependency " +:+ py_str dep +:+ " not satisfied"))
      | Some _ => check_dependencies results rest
      end
  end.

(** What the step loop has reached: the outside world, [self._step_results]
    and [state.messages], all updated in place, and how the loop left. *)
Record loop_state : Type := {
  ls_world : world;
  ls_results : gmap key value;
  ls_messages : list (gmap string value);
  ls_exit : result unit
}.

(** The part of the body before [_execute_step]: the read of the id and the
    dependency check. *)
Definition step_guard (results : gmap key value) (step : value) : result value :=
  step_id ← py_getitem step "id";
  dependencies ← py_get step "dependencies" (VList []) ≫= py_iter;
  check_dependencies results dependencies;;
  mret step_id.

(** One pass through the body of [for step in steps]. *)
Definition step_body (tools : gmap string Tool) (ctx : gmap string cval)
    (w : world) (results : gmap key value) (msgs : list (gmap string value))
    (step : value) : loop_state :=
  match step_guard results step with
  | Raise e => {| ls_world := w; ls_results := results; ls_messages := msgs;
                  ls_exit := Raise e |}
  | Ok step_id =>
      match execute_step w tools results step ctx with
      | (w1, Raise e) => {| ls_world := w1; ls_results := results; ls_messages := msgs;
                            ls_exit := Raise e |}
      | (w1, Ok r) =>
          match hash_key step_id with
          | Raise e => {| ls_world := w1; ls_results := results; ls_messages := msgs;
                          ls_exit := Raise e |}
          | Ok k =>
              let results1 := <[k := r]> results in
              match json_dumps r with
              | Raise e => {| ls_world := w1; ls_results := results1;
                              ls_messages := msgs; ls_exit := Raise e |}
              | Ok text =>
                  {| ls_world := w1; ls_results := results1;
                     ls_messages := msgs ++ [executed_message step_id text];
                     ls_exit := Ok () |}
              end
          end
      end
  end.

(** [for step in steps: ...], left at the first exception. *)
Fixpoint run_steps (tools : gmap string Tool) (ctx : gmap string cval)
    (w : world) (results : gmap key value) (msgs : list (gmap string value))
    (steps : list value) : loop_state :=
  match steps with
  | [] => {| ls_world := w; ls_results := results; ls_messages := msgs;
             ls_exit := Ok () |}
  | step :: rest =>
      let s := step_body tools ctx w results msgs step in
      match ls_exit s with
      | Raise _ => s
      | Ok _ => run_steps tools ctx (ls_world s) (ls_results s) (ls_messages s) rest
      end
  end.

(** [bool(x)] of a context entry; [None] stands for a missing one. *)
Definition ctx_truthy (results : gmap key value) (x : option cval) : bool :=
  match x with
  | None => false
  | Some (CV v) => truthy v
  | Some CStepResults => negb (bool_decide (results = ∅))
  end.

(** [json.loads(plan)] *)
Definition loads_plan (plan : option cval) : result value :=
  match plan with
  | Some (CV (VStr s)) => json_loads s
  | Some (CV v) =>
      Raise (TypeError ("the JSON object must be str, bytes or bytearray, not "
                        +:+ type_name v))
  | Some CStepResults =>
      Raise (TypeError "the JSON object must be str, bytes or bytearray, not dict")
  | None =>
      Raise (TypeError "the JSON object must be str, bytes or bytearray, not NoneType")
  end.

(** The statements of the [try] block, up to and without the assignment of
    [execution_results]. *)
Definition try_block (w : world) (self : ExecutorAgent) (state : AgentState)
  : loop_state :=
  match
    plan_data ← loads_plan (context state !! "plan");
    py_get plan_data "steps" (VList []) ≫= py_iter
  with
  | Raise e => {| ls_world := w; ls_results := step_results self;
                  ls_messages := messages state; ls_exit := Raise e |}
  | Ok steps =>
      run_steps (executor_tools self) (context state) w (step_results self)
        (messages state) steps
  end.

Definition executor_process (w : world) (self : ExecutorAgent) (state : AgentState)
  : world * ExecutorAgent * result AgentState :=
  let self := executor_initialize self in
  let plan := context state !! "plan" in
  if negb (ctx_truthy (step_results self) plan) then (w, self, Ok state)
  else
    let s := try_block w self state in
    let self' := set_step_results self (ls_results s) in
    match ls_exit s with
    | Ok _ =>
        (ls_world s, self',
         Ok {| messages := ls_messages s;
               memory := memory state;
               context := <["execution_results" := CStepResults]> (context state) |})
    | Raise e =>
        (ls_world s, self',
         Ok {| messages := ls_messages s ++ [error_message e];
               memory := memory state;
               context := context state |})
    end.

(** *** graph.py *)

Record AgentGraphState : Type := {
  graph_messages : list (gmap string value);
  graph_memory : gmap string value;
  graph_context : gmap string cval;
  current_agent : string
}.

(** [langgraph.graph.END] *)
Definition END : string := "__end__".

Definition should_continue (state : AgentGraphState) : bool * string :=
  if bool_decide (is_Some (graph_context state !! "plan")) then (true, "executor")
  else if bool_decide (is_Some (graph_context state !! "execution_results"))
       then (false, END)
       else (true, "planner").

(** The registration loop of [create_agent_graph_with_tools]. *)
Fixpoint add_tools (planner : PlannerAgent) (executor : ExecutorAgent)
    (tools : list Tool) : PlannerAgent * ExecutorAgent :=
  match tools with
  | [] => (planner, executor)
  | tool :: rest =>
      add_tools (planner_add_tool planner tool) (executor_add_tool executor tool) rest
  end.

(** The key under which the result of a step is cached, when the step has
    an id that can be hashed. *)
Definition step_key (step : value) : option key :=
  match py_getitem step "id" ≫= hash_key with
  | Ok k => Some k
  | Raise _ => None
  end.

(** The [AgentState] the two node functions build from the graph state, and
    the graph state they return. *)
Definition agent_state (state : AgentGraphState) : AgentState :=
  {| messages := graph_messages state;
     memory := graph_memory state;
     context := graph_context state |}.

Definition graph_state (updated_state : AgentState) (agent : string) : AgentGraphState :=
  {| graph_messages := messages updated_state;
     graph_memory := memory updated_state;
     graph_context := context updated_state;
     current_agent := agent |}.

Definition run_planner (w : world) (planner : PlannerAgent) (state : AgentGraphState)
  : world * PlannerAgent * result AgentGraphState :=
  match planner_process w planner (agent_state state) with
  | (w', planner', Ok updated_state) => (w', planner', Ok (graph_state updated_state "planner"))
  | (w', planner', Raise e) => (w', planner', Raise e)
  end.

Definition run_executor (w : world) (executor : ExecutorAgent) (state : AgentGraphState)
  : world * ExecutorAgent * result AgentGraphState :=
  match executor_process w executor (agent_state state) with
  | (w', executor', Ok updated_state) =>
      (w', executor', Ok (graph_state updated_state "executor"))
  | (w', executor', Raise e) => (w', executor', Raise e)
  end.

(** One node of the graph has run and returned: the planner or the executor,
    in any world and with any agent. *)
Inductive node_run : AgentGraphState -> AgentGraphState -> Prop :=
  | planner_ran w planner state w' planner' state' :
      run_planner w planner state = (w', planner', Ok state') ->
      node_run state state'
  | executor_ran w executor state w' executor' state' :
      run_executor w executor state = (w', executor', Ok state') ->
      node_run state state'.

(** The context never holds results without a plan. *)
Definition results_need_plan (state : AgentGraphState) : Prop :=
  is_Some (graph_context state !! "execution_results") ->
  is_Some (graph_context state !! "plan").

(** The executor resolves a name to the last tool of that name in the
    planner's list. *)
Definition same_tools (planner : PlannerAgent) (executor : ExecutorAgent)
  : Prop :=
  forall n,
    executor_tools executor !! n =
      last (filter (fun t => name t = n) (planner_tools planner)).

End Agents.

Arguments PlannerAgent world : clear implicits.
Arguments ExecutorAgent world : clear implicits.
Arguments loop_state world : clear implicits.

(** ** tools/web_search.py *)

Section WebSearch.

Context `{Collaborators world}.

(** [self.search.results(query, num_results)] of the search wrapper. *)
Variable search_results : world -> value -> Z -> world * result value.

(** The text of one search result. *)
Definition format_result (r : value) : result string :=
  title ← py_getitem r "title";
  link ← py_getitem r "link";
  snippet ← py_getitem r "snippet";
  Ok ("Title: " +:+ py_str title +:+ nl +:+
      "Link: " +:+ py_str link +:+ nl +:+
      "Snippet: " +:+ py_str snippet +:+ nl).

(** A result that has the three entries [_run] reads, and their values. *)
Definition has_entries (r : value) (entry : value * value * value) : Prop :=
  py_getitem r "title" = Ok entry.1.1 /\
  py_getitem r "link" = Ok entry.1.2 /\
  py_getitem r "snippet" = Ok entry.2.

(** The three lines of a result with these entries. *)
Definition entry_text (entry : value * value * value) : string :=
  "Title: " +:+ py_str entry.1.1 +:+ nl +:+
  "Link: " +:+ py_str entry.1.2 +:+ nl +:+
  "Snippet: " +:+ py_str entry.2 +:+ nl.

(** The first of the three entries that a result cannot give raises [e]. *)
Definition first_missing (r : value) (e : exn) : Prop :=
  py_getitem r "title" = Raise e \/
  (exists title,
     py_getitem r "title" = Ok title /\ py_getitem r "link" = Raise e) \/
  (exists title link,
     py_getitem r "title" = Ok title /\ py_getitem r "link" = Ok link /\
     py_getitem r "snippet" = Raise e).

(** The loop [for result in results], left at the first exception. *)
Fixpoint format_results (rs : list value) : result (list string) :=
  match rs with
  | [] => Ok []
  | r :: rest =>
      t ← format_result r;
      ts ← format_results rest;
      Ok (t :: ts)
  end.

(** [WebSearchTool._run] *)
Definition web_search_run (w : world) (query : value) : world * result string :=
  let '(w1, found) := search_results w query 5 in
  match
    results ← found;
    rs ← py_iter results;
    formatted_results ← format_results rs;
    Ok (String.concat (nl +:+ nl) formatted_results)
  with
  | Ok t => (w1, Ok t)
  | Raise e => (w1, Ok ("Error performing web search: " +:+ exn_str e))
  end.

End WebSearch.

(** ** Floats

    A number written with a fraction or an exponent is a [float]: the
    double nearest to the decimal, ties to even.  [repr] writes the shortest
    decimal that reads back as the same double. *)

Module Float.

Definition prec : Z := 53.
Definition emax : Z := 1024.

(** The double nearest to [n / d], for [0 <= n] and [0 < d]. *)
Definition of_ratio (negative : bool) (n d : Z) : spec_float :=
  if Z.eqb n 0 then S754_zero negative
  else
    let s := Z.max 0 (56 + Z.log2 d - Z.log2 n) in
    let n' := Z.shiftl n s in
    let q := n' / d in
    let r := n' mod d in
    let l := if Z.eqb r 0 then loc_Exact else loc_Inexact (Z.compare (2 * r) d) in
    binary_round_aux prec emax negative q (- s) l.

(** The number of decimal digits of a positive integer. *)
Definition decimal_length (n : Z) : Z := Z.of_nat (String.length (pretty n)).

(** The double nearest to [n * 10 ^ e], for [0 <= n]. *)
Definition of_decimal (negative : bool) (n e : Z) : spec_float :=
  if Z.eqb n 0 then S754_zero negative
  else if Z.ltb 400 (e + decimal_length n) then S754_infinity negative
  else if Z.ltb (e + decimal_length n) (-400) then S754_zero negative
  else if Z.leb 0 e then of_ratio negative (n * 10 ^ e) 1
  else of_ratio negative n (10 ^ (- e)).

(** Whether [10 ^ p <= n / d]. *)
Definition reaches (n d p : Z) : bool :=
  if Z.leb 0 p then Z.leb (d * 10 ^ p) n else Z.leb d (n * 10 ^ (- p)).

(** The [p] with [10 ^ (p - 1) <= n / d < 10 ^ p], from an estimate of it. *)
Fixpoint decimal_point (fuel : nat) (n d p : Z) : Z :=
  match fuel with
  | O => p
  | S fuel =>
      if reaches n d p then decimal_point fuel n d (p + 1)
      else if reaches n d (p - 1) then p
      else decimal_point fuel n d (p - 1)
  end.

(** The shortest digits that read back as [x = n / d], and the position of
    the decimal point before them; [count] digits are tried first. *)
Fixpoint shortest (fuel : nat) (x : spec_float) (n d p count : Z) : Z * Z :=
  let scaled_n := if Z.leb 0 (count - p) then n * 10 ^ (count - p) else n in
  let scaled_d := if Z.leb 0 (count - p) then d else d * 10 ^ (p - count) in
  let low := scaled_n / scaled_d in
  let high := low + 1 in
  let reads c := bool_decide (of_decimal false c (p - count) = x) in
  let nearer :=
    match Z.compare (2 * (scaled_n mod scaled_d)) scaled_d with
    | Lt => low
    | Gt => high
    | Eq => if Z.even low then low else high
    end in
  match fuel with
  | O => (nearer, p - count)
  | S fuel =>
      match reads low, reads high with
      | true, true => (nearer, p - count)
      | true, false => (low, p - count)
      | false, true => (high, p - count)
      | false, false => shortest fuel x n d p (count + 1)
      end
  end.

Fixpoint strip_zeros (fuel : nat) (c e : Z) : Z * Z :=
  match fuel with
  | O => (c, e)
  | S fuel => if Z.eqb (c mod 10) 0 then strip_zeros fuel (c / 10) (e + 1) else (c, e)
  end.

Fixpoint zeros (n : nat) : string :=
  match n with
  | O => EmptyString
  | S n => String "0" (zeros n)
  end.

(** [repr] of a positive finite double [m * 2 ^ e]. *)
Definition repr_finite (m : positive) (e : Z) : string :=
  let n := if Z.leb 0 e then Zpos m * 2 ^ e else Zpos m in
  let d := if Z.leb 0 e then 1 else 2 ^ (- e) in
  let estimate := (Z.log2 n - Z.log2 d) * 30103 / 100000 in
  let p := decimal_point 8 n d estimate in
  let '(c, e10) := shortest 17 (S754_finite false m e) n d p 1 in
  let '(c, e10) := strip_zeros 20 c e10 in
  let digits := pretty c in
  let k := Z.of_nat (String.length digits) in
  let point := k + e10 in
  if Z.ltb (-4) point && Z.leb point 16 then
    if Z.leb point 0 then "0." +:+ zeros (Z.to_nat (- point)) +:+ digits
    else if Z.leb k point then digits +:+ zeros (Z.to_nat (point - k)) +:+ ".0"
    else String.substring 0 (Z.to_nat point) digits +:+ "." +:+
         String.substring (Z.to_nat point) (Z.to_nat (k - point)) digits
  else
    let exponent := point - 1 in
    let mantissa :=
      match digits with
      | String c1 EmptyString => digits
      | String c1 rest => String c1 ("." +:+ rest)
      | EmptyString => digits
      end in
    let magnitude := pretty (Z.abs exponent) in
    mantissa +:+ "e" +:+ (if Z.ltb exponent 0 then "-" else "+") +:+
    (if Z.ltb (Z.abs exponent) 10 then "0" +:+ magnitude else magnitude).

(** [float.__repr__] *)
Definition repr (x : spec_float) : string :=
  match x with
  | S754_zero false => "0.0"
  | S754_zero true => "-0.0"
  | S754_infinity false => "inf"
  | S754_infinity true => "-inf"
  | S754_nan => "nan"
  | S754_finite false m e => repr_finite m e
  | S754_finite true m e => "-" +:+ repr_finite m e
  end.

End Float.

(** ** The JSON codec and [repr]

    [json.loads], [json.dumps(_, indent=2)] and [repr] on the values above,
    for concrete runs; the properties of the agents are proved for every
    codec.  Texts are sequences of bytes in UTF-8, and positions in error
    messages count characters.  The limit of the interpreter on the depth of
    nesting is not modelled, and [repr] takes the characters that Unicode
    leaves unassigned to be printable. *)

Module JSON.

Definition quote : ascii := "034"%char.
Definition backslash : ascii := "092"%char.

(** *** Characters *)

(** The bytes of a character in UTF-8. *)
Definition utf8 (n : Z) : string :=
  let byte (z : Z) := ascii_of_nat (Z.to_nat z) in
  let tail (shift : Z) := byte (128 + Z.land (Z.shiftr n shift) 63) in
  if Z.ltb n 128 then String (byte n) EmptyString
  else if Z.ltb n 2048 then
    String (byte (192 + Z.shiftr n 6)) (String (tail 0) EmptyString)
  else if Z.ltb n 65536 then
    String (byte (224 + Z.shiftr n 12)) (String (tail 6) (String (tail 0) EmptyString))
  else
    String (byte (240 + Z.shiftr n 18))
      (String (tail 12) (String (tail 6) (String (tail 0) EmptyString))).

(** The characters of a text, as numbers. *)
Definition ords (s : string) : list Z :=
  (fun p =>
     match p with
     | String c rest =>
         let n := Z.of_nat (nat_of_ascii c) in
         let lead :=
           if Z.ltb n 192 then n
           else if Z.ltb n 224 then n - 192
           else if Z.ltb n 240 then n - 224
           else n - 240 in
         (fix continue (acc : Z) (rest : string) : Z :=
            match rest with
            | String c' rest' =>
                continue (64 * acc + Z.land (Z.of_nat (nat_of_ascii c')) 63) rest'
            | EmptyString => acc
            end) lead rest
     | EmptyString => 0
     end) <$> code_points s.

Definition hex_digit (n : Z) : ascii :=
  ascii_of_nat (Z.to_nat (if Z.ltb n 10 then 48 + n else 87 + n)).

(** [n] in hexadecimal, in [width] digits. *)
Fixpoint hex (width : nat) (n : Z) : string :=
  match width with
  | O => EmptyString
  | S width => hex width (n / 16) +:+ String (hex_digit (n mod 16)) EmptyString
  end.

(** *** Decoding *)

(** The outcome of reading a term at the head of a text: the term and the
    rest of the text, or an error of the decoder with the rest of the text at
    the place it reports, or another exception. *)
Inductive parsed (A : Type) : Type :=
  | Parsed (a : A) (rest : string)
  | Invalid (msg : string) (rest : string)
  | Failed (e : exn).
Arguments Parsed {A} a rest.
Arguments Invalid {A} msg rest.
Arguments Failed {A} e.

Definition is_space (c : ascii) : bool :=
  match nat_of_ascii c with
  | 32%nat | 9%nat | 10%nat | 13%nat => true
  | _ => false
  end.

Fixpoint skip_space (s : string) : string :=
  match s with
  | String c s' => if is_space c then skip_space s' else s
  | EmptyString => s
  end.

Definition digit (c : ascii) : option Z :=
  let n := nat_of_ascii c in
  if bool_decide (48 ≤ n ≤ 57)%nat then Some (Z.of_nat n - 48) else None.

Definition hexadecimal (c : ascii) : option Z :=
  let n := Z.of_nat (nat_of_ascii c) in
  if Z.leb 48 n && Z.leb n 57 then Some (n - 48)
  else if Z.leb 97 n && Z.leb n 102 then Some (n - 87)
  else if Z.leb 65 n && Z.leb n 70 then Some (n - 55)
  else None.

(** The digits at the head of a text: their number, how many they are, and
    the rest. *)
Fixpoint digits (acc : Z) (count : Z) (s : string) : Z * Z * string :=
  match s with
  | String c s' =>
      match digit c with
      | Some d => digits (10 * acc + d) (count + 1) s'
      | None => (acc, count, s)
      end
  | EmptyString => (acc, count, s)
  end.

Definition int_limit : Z := 4300.

(** A number: the integer part, then a fraction when a digit follows the
    point, then an exponent when a digit follows the [e] and its sign. *)
Definition number (s : string) : parsed value :=
  let '(negative, s1) :=
    match s with
    | String "-" s1 => (true, s1)
    | _ => (false, s)
    end in
  let integer : option (Z * Z * string) :=
    match s1 with
    | String c s2 =>
        match digit c with
        | Some 0 => Some (0, 1, s2)
        | Some d => Some (digits d 1 s2)
        | None => None
        end
    | EmptyString => None
    end in
  match integer with
  | None => Invalid "Expecting value" s
  | Some (n, count, s2) =>
      let '(n1, scale, s3, fraction) :=
        match s2 with
        | String "." (String c s') =>
            match digit c with
            | Some d =>
                let '(n1, count1, s3) := digits (10 * n + d) 1 s' in
                (n1, count1, s3, true)
            | None => (n, 0, s2, false)
            end
        | _ => (n, 0, s2, false)
        end in
      let exponent_of (sign : Z) (s' : string) : option (Z * string) :=
        match s' with
        | String c s'' =>
            match digit c with
            | Some d => let '(x, _, s4) := digits d 1 s'' in Some (sign * x, s4)
            | None => None
            end
        | EmptyString => None
        end in
      let exponent : option (Z * string) :=
        match s3 with
        | String c s' =>
            if Ascii.eqb c "e" || Ascii.eqb c "E" then
              match s' with
              | String "-" (String c' s'') => exponent_of (-1) (String c' s'')
              | String "+" (String c' s'') => exponent_of 1 (String c' s'')
              | _ => exponent_of 1 s'
              end
            else None
        | EmptyString => None
        end in
      match exponent with
      | Some (x, s4) => Parsed (VFloat (Float.of_decimal negative n1 (x - scale))) s4
      | None =>
          if fraction then Parsed (VFloat (Float.of_decimal negative n1 (- scale))) s3
          else if Z.ltb int_limit count then
            Failed (ValueError
                      ("Exceeds the limit (4300 digits) for integer string conversion: "
                       +:+ "value has " +:+ pretty count +:+ " digits; use "
                       +:+ "sys.set_int_max_str_digits() to increase the limit"))
          else Parsed (VInt (if negative then - n else n)) s2
      end
  end.

Definition unescape (c : ascii) : option ascii :=
  match nat_of_ascii c with
  | 34%nat => Some quote
  | 92%nat => Some backslash
  | 47%nat => Some "/"%char
  | 98%nat => Some "008"%char
  | 102%nat => Some "012"%char
  | 110%nat => Some "010"%char
  | 114%nat => Some "013"%char
  | 116%nat => Some "009"%char
  | _ => None
  end.

(** The number four hexadecimal digits stand for. *)
Definition hex4 (h1 h2 h3 h4 : ascii) : option Z :=
  match hexadecimal h1, hexadecimal h2, hexadecimal h3, hexadecimal h4 with
  | Some a, Some b, Some c, Some d => Some (4096 * a + 256 * b + 16 * c + d)
  | _, _, _, _ => None
  end.

Definition prepend (t : string) (r : parsed string) : parsed string :=
  match r with
  | Parsed body rest => Parsed (t +:+ body) rest
  | _ => r
  end.

(** The body of a string literal, after its opening quote; [opening] is the
    text from that quote on.  The four digits of a [\u] escape are read only
    when the text goes on after them. *)
Fixpoint scanstring (opening : string) (s : string) : parsed string :=
  match s with
  | EmptyString => Invalid "Unterminated string starting at" opening
  | String c s' =>
      if Ascii.eqb c quote then Parsed EmptyString s'
      else if Ascii.eqb c backslash then
        match s' with
        | EmptyString => Invalid "Unterminated string starting at" opening
        | String "u" (String h1 (String h2 (String h3 (String h4
            ((String _ _) as s''))))) =>
            match hex4 h1 h2 h3 h4 with
            | None => Invalid "Invalid \uXXXX escape" s'
            | Some n =>
                let pair :=
                  match s'' with
                  | String "\" (String "u" (String l1 (String l2 (String l3
                      (String l4 ((String _ _) as s3)))))) =>
                      match hex4 l1 l2 l3 l4 with
                      | Some n2 =>
                          if Z.leb 55296 n && Z.leb n 56319 &&
                             Z.leb 56320 n2 && Z.leb n2 57343
                          then Some (65536 + 1024 * (n - 55296) + (n2 - 56320),
                                     scanstring opening s3)
                          else None
                      | None => None
                      end
                  | _ => None
                  end in
                match pair with
                | Some (joined, r) => prepend (utf8 joined) r
                | None => prepend (utf8 n) (scanstring opening s'')
                end
            end
        | String "u" _ => Invalid "Invalid \uXXXX escape" s'
        | String e s'' =>
            match unescape e with
            | Some c' => prepend (String c' EmptyString) (scanstring opening s'')
            | None => Invalid "Invalid \escape" s
            end
        end
      else if bool_decide (nat_of_ascii c < 32)%nat
      then Invalid "Invalid control character at" s
      else prepend (String c EmptyString) (scanstring opening s')
  end.

(** The string literal that a key is. *)
Definition key_literal (s : string) : parsed string :=
  match s with
  | String c s1 =>
      if Ascii.eqb c quote then scanstring s s1
      else Invalid "Expecting property name enclosed in double quotes" s
  | EmptyString => Invalid "Expecting property name enclosed in double quotes" s
  end.

(** A repeated key keeps its place and takes the later value. *)
Fixpoint dict_set (d : list (string * value)) (k : string) (v : value)
  : list (string * value) :=
  match d with
  | [] => [(k, v)]
  | (k', v') :: d' =>
      if String.eqb k' k then (k, v) :: d' else (k', v') :: dict_set d' k v
  end.

Definition prefixed (p s : string) : option string :=
  if String.prefix p s then Some (String.substring (String.length p)
                                   (String.length s - String.length p) s)
  else None.

(** The term at the head of a text. *)
Fixpoint parse (fuel : nat) (s : string) : parsed value :=
  match fuel with
  | O => Invalid "Expecting value" s
  | S fuel =>
      let elements :=
        fix elements (n : nat) (acc : list value) (s : string) : parsed value :=
          match n with
          | O => Invalid "Expecting value" s
          | S n =>
              match parse fuel s with
              | Parsed v rest =>
                  match skip_space rest with
                  | String "]" rest' => Parsed (VList (acc ++ [v])%list) rest'
                  | String "," rest' => elements n (acc ++ [v])%list (skip_space rest')
                  | rest' => Invalid "Expecting ',' delimiter" rest'
                  end
              | r => r
              end
          end in
      let members :=
        fix members (n : nat) (acc : list (string * value)) (s : string)
          : parsed value :=
          match n with
          | O => Invalid "Expecting value" s
          | S n =>
              match key_literal s with
              | Parsed k s2 =>
                  match skip_space s2 with
                  | String ":" s3 =>
                      match parse fuel (skip_space s3) with
                      | Parsed v rest =>
                          match skip_space rest with
                          | String "}" rest' => Parsed (VDict (dict_set acc k v)) rest'
                          | String "," rest' =>
                              members n (dict_set acc k v) (skip_space rest')
                          | rest' => Invalid "Expecting ',' delimiter" rest'
                          end
                      | r => r
                      end
                  | s3 => Invalid "Expecting ':' delimiter" s3
                  end
              | Invalid msg rest => Invalid msg rest
              | Failed e => Failed e
              end
          end in
      match s with
      | EmptyString => Invalid "Expecting value" s
      | String c s' =>
          if Ascii.eqb c quote then
            match scanstring s s' with
            | Parsed body rest => Parsed (VStr body) rest
            | Invalid msg rest => Invalid msg rest
            | Failed e => Failed e
            end
          else if Ascii.eqb c "[" then
            match skip_space s' with
            | String "]" rest => Parsed (VList []) rest
            | s1 => elements (String.length s) [] s1
            end
          else if Ascii.eqb c "{" then
            match skip_space s' with
            | String "}" rest => Parsed (VDict []) rest
            | s1 => members (String.length s) [] s1
            end
          else
            match prefixed "null" s, prefixed "true" s, prefixed "false" s with
            | Some rest, _, _ => Parsed VNone rest
            | _, Some rest, _ => Parsed (VBool true) rest
            | _, _, Some rest => Parsed (VBool false) rest
            | _, _, _ =>
                match prefixed "NaN" s, prefixed "Infinity" s, prefixed "-Infinity" s with
                | Some rest, _, _ => Parsed (VFloat S754_nan) rest
                | _, Some rest, _ => Parsed (VFloat (S754_infinity false)) rest
                | _, _, Some rest => Parsed (VFloat (S754_infinity true)) rest
                | _, _, _ => number s
                end
            end
      end
  end.

(** The place of the text [rest], which ends [s], in [s]: the number of
    characters before it, and its line and column. *)
Definition location (s rest : string) : Z * Z * Z :=
  (fix walk (n : nat) (s : string) (pos line column : Z) : Z * Z * Z :=
     match n, s with
     | S n, String c s' =>
         if continuation c then walk n s' pos line column
         else if Ascii.eqb c "010" then walk n s' (pos + 1) (line + 1) 1
         else walk n s' (pos + 1) line (column + 1)
     | _, _ => (pos, line, column)
     end) (String.length s - String.length rest)%nat s 0 1 1.

(** The text of a [JSONDecodeError]. *)
Definition errmsg (msg : string) (s rest : string) : string :=
  let '(pos, line, column) := location s rest in
  msg +:+ ": line " +:+ pretty line +:+ " column " +:+ pretty column +:+
  " (char " +:+ pretty pos +:+ ")".

Definition byte_order_mark : string := utf8 65279.

(** [json.loads] *)
Definition loads (s : string) : result value :=
  if String.prefix byte_order_mark s then
    Raise (ValueError (errmsg "Unexpected UTF-8 BOM (decode using utf-8-sig)" s s))
  else
    match parse (S (String.length s)) (skip_space s) with
    | Parsed v rest =>
        match skip_space rest with
        | EmptyString => Ok v
        | rest' => Raise (ValueError (errmsg "Extra data" s rest'))
        end
    | Invalid msg rest => Raise (ValueError (errmsg msg s rest))
    | Failed e => Raise e
    end.

(** *** Encoding *)

(** A character inside a string literal, all in ASCII. *)
Definition escape (n : Z) : string :=
  if Z.eqb n 34 then "\" +:+ String quote EmptyString
  else if Z.eqb n 92 then "\\"
  else if Z.eqb n 10 then "\n"
  else if Z.eqb n 13 then "\r"
  else if Z.eqb n 9 then "\t"
  else if Z.eqb n 8 then "\b"
  else if Z.eqb n 12 then "\f"
  else if Z.leb 32 n && Z.leb n 126 then String (ascii_of_nat (Z.to_nat n)) EmptyString
  else if Z.ltb n 65536 then "\u" +:+ hex 4 n
  else "\u" +:+ hex 4 (55296 + Z.shiftr (n - 65536) 10) +:+
       "\u" +:+ hex 4 (56320 + Z.land (n - 65536) 1023).

Definition literal (s : string) : string :=
  String quote (String.concat EmptyString (escape <$> ords s) +:+ String quote EmptyString).

(** The text of an integer, within the limit on its number of digits. *)
Definition integer (z : Z) : result string :=
  let t := pretty (Z.abs z) in
  if Z.ltb int_limit (Z.of_nat (String.length t)) then
    Raise (ValueError ("Exceeds the limit (4300 digits) for integer string conversion; "
                       +:+ "use sys.set_int_max_str_digits() to increase the limit"))
  else Ok (pretty z).

Definition float_text (x : spec_float) : string :=
  match x with
  | S754_nan => "NaN"
  | S754_infinity false => "Infinity"
  | S754_infinity true => "-Infinity"
  | _ => Float.repr x
  end.

Fixpoint spaces (n : nat) : string :=
  match n with
  | O => EmptyString
  | S n => String " " (spaces n)
  end.

(** [json.dumps(v, indent=2)] at nesting depth [depth]. *)
Fixpoint dumps_at (depth : nat) (v : value) : result string :=
  let items :=
    fix items (l : list value) : result (list string) :=
      match l with
      | [] => Ok []
      | x :: l' =>
          t ← dumps_at (S depth) x;
          ts ← items l';
          Ok (t :: ts)
      end in
  let fields :=
    fix fields (d : list (string * value)) : result (list string) :=
      match d with
      | [] => Ok []
      | (k, x) :: d' =>
          t ← dumps_at (S depth) x;
          ts ← fields d';
          Ok ((literal k +:+ ": " +:+ t) :: ts)
      end in
  let block (opening closing : string) (ts : list string) : string :=
    match ts with
    | [] => opening +:+ closing
    | _ =>
        opening +:+ nl +:+ spaces (2 * S depth) +:+
        String.concat ("," +:+ nl +:+ spaces (2 * S depth)) ts +:+
        nl +:+ spaces (2 * depth) +:+ closing
    end in
  match v with
  | VNone => Ok "null"
  | VBool true => Ok "true"
  | VBool false => Ok "false"
  | VInt z => integer z
  | VFloat x => Ok (float_text x)
  | VStr s => Ok (literal s)
  | VList l => ts ← items l; Ok (block "[" "]" ts)
  | VDict d => ts ← fields d; Ok (block "{" "}" ts)
  end.

Definition dumps (v : value) : result string := dumps_at 0 v.

(** *** [repr] *)

(** The characters that are not printable: the controls, the format
    characters, the separators other than the space, the surrogates and the
    characters of private use, in ranges. *)
Definition unprintable : list (Z * Z) :=
  [(0, 31); (127, 160); (173, 173); (1536, 1541); (1564, 1564); (1757, 1757);
   (1807, 1807); (2192, 2193); (2274, 2274); (5760, 5760); (6158, 6158);
   (8192, 8207); (8232, 8239); (8287, 8292); (8294, 8303); (12288, 12288);
   (55296, 63743); (65279, 65279); (65529, 65531); (69821, 69821);
   (69837, 69837); (78896, 78904); (113824, 113827); (119155, 119162);
   (917505, 917505); (917536, 917631); (983040, 1048573); (1048576, 1114109)].

Definition printable (n : Z) : bool :=
  negb (existsb (fun range => Z.leb range.1 n && Z.leb n range.2) unprintable).

(** A character inside the [repr] of a text that is quoted by [q]. *)
Definition repr_char (q : Z) (n : Z) : string :=
  if Z.eqb n q || Z.eqb n 92 then String backslash (utf8 n)
  else if Z.eqb n 9 then "\t"
  else if Z.eqb n 10 then "\n"
  else if Z.eqb n 13 then "\r"
  else if printable n then utf8 n
  else if Z.ltb n 256 then "\x" +:+ hex 2 n
  else if Z.ltb n 65536 then "\u" +:+ hex 4 n
  else "\U" +:+ hex 8 n.

Definition repr_str (s : string) : string :=
  let cs := ords s in
  let q := if bool_decide (39 ∈ cs) && negb (bool_decide (34 ∈ cs)) then 34 else 39 in
  utf8 q +:+ String.concat EmptyString (repr_char q <$> cs) +:+ utf8 q.

Fixpoint repr (v : value) : string :=
  let items :=
    fix items (l : list value) : list string :=
      match l with
      | [] => []
      | x :: l' => repr x :: items l'
      end in
  let fields :=
    fix fields (d : list (string * value)) : list string :=
      match d with
      | [] => []
      | (k, x) :: d' => (repr_str k +:+ ": " +:+ repr x) :: fields d'
      end in
  match v with
  | VNone => "None"
  | VBool true => "True"
  | VBool false => "False"
  | VInt z => pretty z
  | VFloat x => Float.repr x
  | VStr s => repr_str s
  | VList l => "[" +:+ String.concat ", " (items l) +:+ "]"
  | VDict d => "{" +:+ String.concat ", " (fields d) +:+ "}"
  end.

End JSON.

(** ** The prompts of the source

    [str.format] on a template and keyword arguments that are strings, for
    the fields that name a keyword and carry no conversion and no format
    specification; [None] is a field outside this fragment. *)

Module Format.

(** The field name, up to the character that ends it, and what follows. *)
Fixpoint scan_name (in_index : bool) (s : string) : result (string * ascii * string) :=
  match s with
  | EmptyString => Raise (ValueError "expected '}' before end of string")
  | String c s' =>
      let keep (next : bool) :=
        '(n, stop, rest) ← scan_name next s';
        Ok (String c n, stop, rest) in
      if in_index then keep (negb (Ascii.eqb c "]"))
      else if Ascii.eqb c "{" then Raise (ValueError "unexpected '{' in field name")
      else if Ascii.eqb c "}" || Ascii.eqb c ":" || Ascii.eqb c "!"
      then Ok (EmptyString, c, s')
      else keep (Ascii.eqb c "[")
  end.

(** What follows the brace that closes a format specification; braces nest. *)
Fixpoint spec_end (depth : nat) (s : string) : result string :=
  match s with
  | EmptyString => Raise (ValueError "unmatched '{' in format spec")
  | String c s' =>
      if Ascii.eqb c "{" then spec_end (S depth) s'
      else if Ascii.eqb c "}" then
        match depth with
        | O => Ok s'
        | S depth' => spec_end depth' s'
        end
      else spec_end depth s'
  end.

(** The part of a field name before the first [.] or [[]. *)
Fixpoint first_part (s : string) : string :=
  match s with
  | EmptyString => EmptyString
  | String c s' =>
      if Ascii.eqb c "." || Ascii.eqb c "[" then EmptyString
      else String c (first_part s')
  end.

Fixpoint all_digits (s : string) : bool :=
  match s with
  | EmptyString => true
  | String c s' => bool_decide (48 ≤ nat_of_ascii c ≤ 57)%nat && all_digits s'
  end.

Fixpoint lookup_keyword (kwargs : list (string * string)) (k : string) : option string :=
  match kwargs with
  | [] => None
  | (k', v) :: rest => if String.eqb k' k then Some v else lookup_keyword rest k
  end.

(** The object a field name stands for, no positional argument being given. *)
Definition field_object (kwargs : list (string * string)) (field : string)
  : option (result string) :=
  let first := first_part field in
  if String.eqb first "" || all_digits first
  then Some (Raise (IndexError
                      "Replacement index out of range for positional args tuple"))
  else match lookup_keyword kwargs first with
       | None => Some (Raise (KeyError first))
       | Some v => if String.eqb first field then Some (Ok v) else None
       end.

Fixpoint format (fuel : nat) (s : string) (kwargs : list (string * string))
  : option (result string) :=
  match fuel, s with
  | O, _ => None
  | _, EmptyString => Some (Ok EmptyString)
  | S fuel, String c s' =>
      let literal (rest : string) :=
        r ← format fuel rest kwargs;
        Some (t ← r; Ok (String c t)) in
      if Ascii.eqb c "}" then
        match s' with
        | String "}" rest => literal rest
        | _ => Some (Raise (ValueError "Single '}' encountered in format string"))
        end
      else if Ascii.eqb c "{" then
        match s' with
        | EmptyString =>
            Some (Raise (ValueError "Single '{' encountered in format string"))
        | String "{" rest => literal rest
        | _ =>
            match scan_name false s' with
            | Raise e => Some (Raise e)
            | Ok (field, stop, rest) =>
                if Ascii.eqb stop "!" then None
                else
                match (if Ascii.eqb stop "}" then Ok rest else spec_end 0 rest) with
                | Raise e => Some (Raise e)
                | Ok rest' =>
                    match field_object kwargs field with
                    | None => None
                    | Some (Raise e) => Some (Raise e)
                    | Some (Ok v) =>
                        if Ascii.eqb stop "}" then
                          r ← format fuel rest' kwargs;
                          Some (t ← r; Ok (v +:+ t))
                        else None
                    end
                end
            end
        end
      else literal s'
  end.

End Format.

(** [system_prompt] of [PlannerAgent._create_planning_prompt] *)
Definition planning_template : string :=
  String.concat nl
    ["You are a task planning expert. Your job is to break down complex tasks into smaller, ";
     "        manageable steps that can be executed by an AI agent. Consider dependencies between steps and ensure ";
     "        the plan is logical and complete.";
     "        ";
     "        Available tools:";
     "        {tools}";
     "        ";
     "        Create a detailed plan that:";
     "        1. Breaks down the task into clear, actionable steps";
     "        2. Identifies any dependencies between steps";
     "        3. Specifies which tools should be used for each step";
     "        4. Includes any necessary context or information gathering steps";
     "        ";
     "        Format your response as a JSON object with the following structure:";
     "        {";
     "            " +:+ dq +:+ "steps" +:+ dq +:+ ": [";
     "                {";
     "                    " +:+ dq +:+ "id" +:+ dq +:+ ": " +:+ dq +:+ "step_1" +:+ dq +:+ ",";
     "                    " +:+ dq +:+ "description" +:+ dq +:+ ": " +:+ dq +:+ "Description of the step" +:+ dq +:+ ",";
     "                    " +:+ dq +:+ "tool" +:+ dq +:+ ": " +:+ dq +:+ "tool_name" +:+ dq +:+ ",";
     "                    " +:+ dq +:+ "dependencies" +:+ dq +:+ ": [" +:+ dq +:+ "step_0" +:+ dq +:+ "],";
     "                    " +:+ dq +:+ "expected_output" +:+ dq +:+ ": " +:+ dq +:+ "What this step should produce" +:+ dq +:+ EmptyString;
     "                }";
     "            ]";
     "        }"].

(** [system_prompt] of [ExecutorAgent._create_execution_prompt] *)
Definition execution_template : string :=
  String.concat nl
    ["You are an execution expert. Your job is to execute the given step using the ";
     "        appropriate tool and provide clear, detailed results.";
     "        ";
     "        Available tools:";
     "        {tools}";
     "        ";
     "        Previous step results:";
     "        {previous_results}";
     "        ";
     "        Execute the step and provide:";
     "        1. The exact tool to use and why";
     "        2. The input parameters for the tool";
     "        3. How to handle the tool's output";
     "        4. Any necessary error handling";
     "        ";
     "        Format your response as a JSON object with the following structure:";
     "        {";
     "            " +:+ dq +:+ "tool" +:+ dq +:+ ": " +:+ dq +:+ "tool_name" +:+ dq +:+ ",";
     "            " +:+ dq +:+ "parameters" +:+ dq +:+ ": {";
     "                " +:+ dq +:+ "param1" +:+ dq +:+ ": " +:+ dq +:+ "value1" +:+ dq +:+ EmptyString;
     "            },";
     "            " +:+ dq +:+ "error_handling" +:+ dq +:+ ": " +:+ dq +:+ "How to handle potential errors" +:+ dq +:+ ",";
     "            " +:+ dq +:+ "expected_output" +:+ dq +:+ ": " +:+ dq +:+ "What output to expect" +:+ dq +:+ EmptyString;
     "        }"].

(** ** A scripted outside world

    The replies of the model are queued in the world and every external call
    is logged, so that runs can be evaluated and the calls read off the log. *)

Module Scripted.

Record world : Type := {
  replies : list (result string);
  log : list string
}.

Definition logged (tag : string) (w : world) : world :=
  {| replies := replies w; log := log w ++ [tag] |}.

(** The next queued reply. *)
Definition reply (tag : string) (w : world) : world * result string :=
  match replies w with
  | [] => (logged tag w, Raise (Failure "no reply"))
  | r :: rs => ({| replies := rs; log := log w ++ [tag] |}, r)
  end.

(** A tool that answers [r] whatever its arguments. *)
Definition constant_tool (n : string) (r : value) : Tool world :=
  {| name := n;
     description := "answers a constant";
     call := fun w _ => (logged ("call " +:+ n) w, Ok r) |}.

(** The JSON text of a value. *)
Definition text (v : value) : string :=
  match JSON.dumps v with
  | Ok t => t
  | Raise _ => EmptyString
  end.

Definition step (i tool : string) (dependencies : list string) : value :=
  VDict [("id", VStr i); ("description", VStr "a step"); ("tool", VStr tool);
         ("dependencies", VList (VStr <$> dependencies));
         ("expected_output", VStr "an answer")].

Definition plan (steps : list value) : string :=
  text (VDict [("steps", VList steps)]).

Definition decision (tool : string) (parameters : list (string * value)) : result string :=
  Ok (text (VDict [("tool", VStr tool); ("parameters", VDict parameters);
                   ("error_handling", VStr "none"); ("expected_output", VStr "an answer")])).

Definition user_message (content : string) : gmap string value :=
  <["content" := VStr content]> {["role" := VStr "user"]}.

Definition state_with_plan (p : string) : AgentState :=
  {| messages := [user_message "find it"];
     memory := ∅;
     context := {["plan" := CV (VStr p)]} |}.

(** A new executor with the tools [search], answering ["found"], and
    [scrape], answering ["scraped"]. *)
Definition executor : ExecutorAgent world :=
  executor_add_tool
    (executor_add_tool ExecutorAgent_init (constant_tool "search" (VStr "found")))
    (constant_tool "scrape" (VStr "scraped")).

(** A step followed by a step that depends on it. *)
Definition chained_plan : string :=
  plan [step "s1" "search" []; step "s2" "scrape" ["s1"]].

(** A step followed by a step with a dependency nothing provides. *)
Definition dangling_plan : string :=
  plan [step "s1" "search" []; step "s2" "scrape" ["s0"]].


(** A single step with a dependency nothing provides. *)
Definition dangling_step_plan : string :=
  plan [step "s2" "scrape" ["s0"]].


(** The model answers for two steps, naming the tool of each. *)
Definition two_replies : world :=
  {| replies := [decision "search" []; decision "scrape" []]; log := [] |}.

Definition one_reply (tool : string) : world :=
  {| replies := [decision tool []]; log := [] |}.

Definition silent : world := {| replies := []; log := [] |}.

Definition planner : PlannerAgent world :=
  planner_add_tool PlannerAgent_init (constant_tool "search" (VStr "found")).

(** A search wrapper that answers [found] to every query. *)
Definition canned_search (found : result value) (w : world) (query : value) (n : Z)
  : world * result value :=
  (logged "search" w, found).

Definition search_result (title link snippet : string) : value :=
  VDict [("title", VStr title); ("link", VStr link); ("snippet", VStr snippet)].

(** A step whose dependencies are the text [ab]. *)
Definition text_dependencies_step : list (string * value) :=
  [("id", VStr "s9"); ("dependencies", VStr "ab")].

(** A graph state that holds a plan and no results. *)
Definition graph_with_plan (p : string) : AgentGraphState :=
  {| graph_messages := [user_message "find it"];
     graph_memory := ∅;
     graph_context := {["plan" := CV (VStr p)]};
     current_agent := "planner" |}.

End Scripted.

(** ** The prompts of the source in the scripted world

    The collaborators whose prompt functions are those of the source: the
    templates above filled in by [str.format].  The listing of the
    executor's tools and the text of its cached results follow the order of
    the keys, where Python follows the order of insertion, and write a key
    that is equal to an integer as that integer. *)

Module Shipped.

Import Scripted.

Definition str (v : value) : string :=
  match v with
  | VStr s => s
  | _ => JSON.repr v
  end.

Definition filled (template : string) (kwargs : list (string * string))
  : result string :=
  match Format.format (S (String.length template)) template kwargs with
  | Some r => r
  | None => Raise (Failure "field outside the fragment")
  end.

Definition planning_prompt (tools : list (Tool world)) (task : value)
  : result Prompt :=
  let listing :=
    String.concat nl
      ((fun tool => "- " +:+ name tool +:+ ": " +:+ description tool) <$> tools) in
  prompt ← filled planning_template [("tools", listing)];
  Ok {| system := prompt; human := "Task to plan: " +:+ str task |}.

Definition key_text (k : key) : string :=
  match k with
  | KNone => "null"
  | KInt z => pretty z
  | KFloat x => JSON.float_text x
  | KStr s => s
  end.

Definition results_value (results : gmap key value) : value :=
  VDict ((fun kv => (key_text kv.1, kv.2)) <$> map_to_list results).

Definition context_value (results : gmap key value) (ctx : gmap string cval) : value :=
  VDict ((fun kc => (kc.1, match kc.2 with
                           | CV v => v
                           | CStepResults => results_value results
                           end)) <$> map_to_list ctx).

Definition execution_prompt (tools : gmap string (Tool world))
    (results : gmap key value) (step : value) (ctx : gmap string cval)
  : result Prompt :=
  let listing :=
    String.concat nl
      ((fun nt => "- " +:+ nt.1 +:+ ": " +:+ description nt.2) <$> map_to_list tools) in
  previous_results ← JSON.dumps (results_value results);
  prompt ← filled execution_template
             [("tools", listing); ("previous_results", previous_results)];
  step_text ← JSON.dumps step;
  context_text ← JSON.dumps (context_value results ctx);
  Ok {| system := prompt;
        human := "Step to execute: " +:+ step_text +:+ nl +:+ "Context: "
                 +:+ context_text |}.

(** The key [str.format] fails to find: the text between the brace that
    opens the JSON example of a template and the colon after its first key. *)
Definition example_key (k : string) : string :=
  nl +:+ "            " +:+ dq +:+ k +:+ dq.

Definition collaborators : Collaborators world := {|
  json_loads := JSON.loads;
  json_dumps := JSON.dumps;
  py_repr := JSON.repr;
  create_planning_prompt := planning_prompt;
  create_execution_prompt := execution_prompt;
  llm_invoke := fun w p => reply "invoke" w
|}.

End Shipped.

(** ** Properties *)

Section Properties.

Context `{Collaborators world}.

Implicit Types (w : world) (results : gmap key value) (ctx : gmap string cval).
Implicit Types (msgs : list (gmap string value)) (step : value) (steps : list value).
Implicit Types (tools : gmap string (Tool world)) (e : exn).

(** *** The step loop *)

Lemma run_steps_cons tools ctx w results msgs step rest :
  run_steps tools ctx w results msgs (step :: rest) =
    let s := step_body tools ctx w results msgs step in
    match ls_exit s with
    | Raise _ => s
    | Ok _ => run_steps tools ctx (ls_world s) (ls_results s) (ls_messages s) rest
    end.
Proof. reflexivity. Qed.

(** The loop over [xs ++ ys] is the loop over [xs] followed, when that one
    was not left by an exception, by the loop over [ys]. *)
Lemma run_steps_app tools ctx w results msgs xs ys :
  run_steps tools ctx w results msgs (xs ++ ys) =
    let s := run_steps tools ctx w results msgs xs in
    match ls_exit s with
    | Raise _ => s
    | Ok _ => run_steps tools ctx (ls_world s) (ls_results s) (ls_messages s) ys
    end.
Proof.
  revert w results msgs.
  induction xs as [|x xs IH]; intros w results msgs; [reflexivity|].
  rewrite <- app_comm_cons, !run_steps_cons. cbn zeta.
  destruct (ls_exit (step_body tools ctx w results msgs x)) eqn:Hx.
  - apply IH.
  - rewrite Hx. reflexivity.
Qed.

(** An exception in the body leaves the loop: the steps after it play no part. *)
Lemma run_steps_raise tools ctx w results msgs step rest e :
  ls_exit (step_body tools ctx w results msgs step) = Raise e ->
  run_steps tools ctx w results msgs (step :: rest) =
    step_body tools ctx w results msgs step.
Proof. intros He. rewrite run_steps_cons. cbn zeta. rewrite He. reflexivity. Qed.

Lemma step_body_guard_raise tools ctx w results msgs step e :
  step_guard results step = Raise e ->
  step_body tools ctx w results msgs step =
    {| ls_world := w; ls_results := results; ls_messages := msgs; ls_exit := Raise e |}.
Proof. unfold step_body. intros ->. reflexivity. Qed.

Lemma check_dependencies_missing results dependencies dep k :
  dep ∈ dependencies -> hash_key dep = Ok k -> results !! k = None ->
  exists e, check_dependencies results dependencies = Raise e.
Proof.
  intros Hin Hk Hnone.
  induction dependencies as [|d ds IH]; [by apply not_elem_of_nil in Hin|].
  cbn [check_dependencies].
  destruct (hash_key d) as [kd|e] eqn:Hd; cbn; [|by eexists].
  destruct (results !! kd) eqn:Hl; [|by eexists].
  apply elem_of_cons in Hin as [->|Hin]; [congruence|by apply IH].
Qed.

Lemma check_dependencies_present results dependencies :
  Forall (fun dep => exists k, hash_key dep = Ok k /\ is_Some (results !! k)) dependencies ->
  check_dependencies results dependencies = Ok ().
Proof.
  induction 1 as [|d ds (k & Hk & [v Hv]) _ IH]; [reflexivity|].
  cbn [check_dependencies]. rewrite Hk. cbn. rewrite Hv. exact IH.
Qed.

(** A step whose guard passes and whose execution, hashing and echo succeed. *)
Lemma step_body_ok tools ctx w results msgs step step_id k w1 r text :
  step_guard results step = Ok step_id ->
  execute_step w tools results step ctx = (w1, Ok r) ->
  hash_key step_id = Ok k ->
  json_dumps r = Ok text ->
  step_body tools ctx w results msgs step =
    {| ls_world := w1; ls_results := <[k := r]> results;
       ls_messages := msgs ++ [executed_message step_id text]; ls_exit := Ok () |}.
Proof.
  unfold step_body. intros -> -> -> ->. reflexivity.
Qed.

(** The messages the loop appends are the echoes of the completed steps. *)
Lemma step_body_messages tools ctx w results msgs step :
  exists echoes,
    ls_messages (step_body tools ctx w results msgs step) = msgs ++ echoes /\
    Forall (fun m => exists i t, m = executed_message i t) echoes.
Proof.
  unfold step_body.
  destruct (step_guard _ _) as [step_id|e]; [|by exists []; rewrite app_nil_r].
  destruct (execute_step _ _ _ _ _) as [w1 [r|e]];
    [|by exists []; rewrite app_nil_r].
  destruct (hash_key step_id) as [k'|e]; [|by exists []; rewrite app_nil_r].
  destruct (json_dumps r) as [t|e]; [|by exists []; rewrite app_nil_r].
  exists [executed_message step_id t]. split; [done|].
  constructor; [by eexists _, _|constructor].
Qed.

Lemma run_steps_messages tools ctx w results msgs steps :
  exists echoes,
    ls_messages (run_steps tools ctx w results msgs steps) = msgs ++ echoes /\
    Forall (fun m => exists i t, m = executed_message i t) echoes.
Proof.
  revert w results msgs.
  induction steps as [|step rest IH]; intros w results msgs.
  { exists []. by rewrite app_nil_r. }
  rewrite run_steps_cons. cbn zeta.
  destruct (step_body_messages tools ctx w results msgs step) as (e1 & H1 & F1).
  destruct (ls_exit _); [|by exists e1].
  destruct (IH (ls_world (step_body tools ctx w results msgs step))
               (ls_results (step_body tools ctx w results msgs step))
               (ls_messages (step_body tools ctx w results msgs step)))
    as (e2 & H2 & F2).
  exists (e1 ++ e2). rewrite H2, H1, app_assoc. split; [done|].
  by apply Forall_app.
Qed.

Lemma try_block_initialize w (self : ExecutorAgent world) state :
  try_block w (executor_initialize self) state = try_block w self state.
Proof. reflexivity. Qed.

Lemma try_block_messages w (self : ExecutorAgent world) state :
  exists echoes,
    ls_messages (try_block w self state) = messages state ++ echoes /\
    Forall (fun m => exists i t, m = executed_message i t) echoes.
Proof.
  unfold try_block.
  destruct (_ ≫= _) as [steps|e]; [apply run_steps_messages|].
  exists []. by rewrite app_nil_r.
Qed.

(** *** The router *)

(** C3. The router reads the context in a fixed order: with a [plan] entry
    the answer is to continue with the executor, whatever else the context
    holds; without one and with an [execution_results] entry it is to stop;
    with neither it is to continue with the planner. *)
Theorem should_continue_priority (state : AgentGraphState) :
  (is_Some (graph_context state !! "plan") ->
   should_continue state = (true, "executor")) /\
  (graph_context state !! "plan" = None ->
   is_Some (graph_context state !! "execution_results") ->
   should_continue state = (false, END)) /\
  (graph_context state !! "plan" = None ->
   graph_context state !! "execution_results" = None ->
   should_continue state = (true, "planner")).
Proof.
  unfold should_continue. repeat split.
  - intros Hp. by rewrite bool_decide_eq_true_2.
  - intros Hp Hr. rewrite bool_decide_eq_false_2, bool_decide_eq_true_2; [done..|].
    rewrite Hp. by intros [? ?].
  - intros Hp Hr. rewrite !bool_decide_eq_false_2; [done|..].
    + rewrite Hr. by intros [? ?].
    + rewrite Hp. by intros [? ?].
Qed.

(** *** The planner *)

(** The contract of the planner, for any collaborators.  With no message the
    planner returns the state as it is.  With messages, and when the proposal
    call returns, the task is the content of the last message, the text of
    the proposal becomes [context.plan] as it is, and one assistant message is
    appended; nothing else changes. *)
Theorem planner_process_contract w (self : PlannerAgent world) state :
  (messages state = [] ->
   planner_process w self state = (w, planner_initialize self, Ok state)) /\
  (forall earlier last_message w' content,
     messages state = earlier ++ [last_message] ->
     propose w
       (create_planning_prompt (planner_tools self)
          (default (VStr "") (last_message !! "content"))) = (w', Ok content) ->
     planner_process w self state =
       (w', planner_initialize self,
        Ok {| messages := messages state ++
                [assistant_message ("Created execution plan:" +:+ nl +:+ content)];
              memory := memory state;
              context := <["plan" := CV (VStr content)]> (context state) |})).
Proof.
  split.
  - intros Hm. unfold planner_process. by rewrite Hm.
  - intros earlier last_message w' content Hm Hp.
    unfold planner_process. rewrite Hm, last_snoc. cbn [planner_initialize planner_tools].
    by rewrite Hp.
Qed.

(** *** Errors *)

(** C2. An exception of the proposal call leaves [PlannerAgent.process] as
    it was raised.  [ExecutorAgent.process] always returns a state: with a
    plan that counts as absent it is the state it was given; when the [try]
    block is left by an exception [e], the messages are those the loop had
    appended, the echoes of the completed steps, followed by one message of
    role [assistant] whose content is [Error during execution: ] followed by
    [str(e)]. *)
Theorem error_propagation_asymmetry w :
  (forall (self : PlannerAgent world) state earlier last_message w' e,
     messages state = earlier ++ [last_message] ->
     propose w
       (create_planning_prompt (planner_tools self)
          (default (VStr "") (last_message !! "content"))) = (w', Raise e) ->
     planner_process w self state = (w', planner_initialize self, Raise e)) /\
  (forall (self : ExecutorAgent world) state,
     exists w' self' state' echoes,
       executor_process w self state = (w', self', Ok state') /\
       Forall (fun m => exists i t,
                 m = <["content" := VStr ("Executed step " +:+ py_str i +:+ ":" +:+ nl
                                          +:+ t)]>
                       {["role" := VStr "assistant"]}) echoes /\
       (ctx_truthy (step_results self) (context state !! "plan") = false ->
        state' = state) /\
       (ctx_truthy (step_results self) (context state !! "plan") = true ->
        match ls_exit (try_block w self state) with
        | Ok _ => messages state' = messages state ++ echoes
        | Raise e =>
            messages state' =
              messages state ++ echoes ++
                [<["content" := VStr ("Error during execution: " +:+ exn_str e)]>
                   {["role" := VStr "assistant"]}]
        end)).
Proof.
  split.
  - intros self state earlier last_message w' e Hm Hp.
    unfold planner_process. rewrite Hm, last_snoc. cbn [planner_initialize planner_tools].
    by rewrite Hp.
  - intros self state. unfold executor_process. cbn zeta.
    rewrite try_block_initialize. cbn [executor_initialize step_results].
    destruct (ctx_truthy _ _) eqn:Ht; cbn [negb].
    + destruct (try_block_messages w self state) as (echoes & Hm & Hf).
      destruct (ls_exit (try_block w self state)) eqn:Hx.
      * eexists _, _, _, echoes. split; [reflexivity|]. split; [exact Hf|].
        split; [discriminate|]. intros _. exact Hm.
      * eexists _, _, _, echoes. split; [reflexivity|]. split; [exact Hf|].
        split; [discriminate|]. intros _. cbn. by rewrite Hm, app_assoc.
    + eexists _, _, _, []. split; [reflexivity|]. split; [constructor|]. done.
Qed.

(** *** A plan that counts as absent *)

(** C10. A [plan] entry bound to a false value is treated as a missing one:
    the state comes back as it is, and the outside world is untouched. *)
Theorem executor_process_falsy_plan w (self : ExecutorAgent world) state :
  (context state !! "plan" = None \/
   exists v, context state !! "plan" = Some (CV v) /\ truthy v = false) ->
  executor_process w self state = (w, executor_initialize self, Ok state).
Proof.
  intros Hp. unfold executor_process. cbn zeta.
  assert (ctx_truthy (step_results (executor_initialize self))
            (context state !! "plan") = false) as ->; [|done].
  destruct Hp as [->|(v & -> & Hv)]; [done|exact Hv].
Qed.

(** *** Plans decoded from text *)

Lemma ctx_truthy_text results (text : string) :
  text <> "" -> ctx_truthy results (Some (CV (VStr text))) = true.
Proof. intros Ht. cbn. by destruct text. Qed.

Lemma try_block_steps w (self : ExecutorAgent world) state text plan_data steps :
  context state !! "plan" = Some (CV (VStr text)) ->
  json_loads text = Ok (VDict plan_data) ->
  dict_get plan_data "steps" = Some (VList steps) ->
  try_block w self state =
    run_steps (executor_tools self) (context state) w (step_results self)
      (messages state) steps.
Proof.
  intros Hp Hl Hs. unfold try_block. rewrite Hp. cbn. rewrite Hl. cbn.
  rewrite Hs. reflexivity.
Qed.

Lemma step_guard_dict results d step_id dependencies :
  dict_get d "id" = Some step_id ->
  py_get (VDict d) "dependencies" (VList []) = Ok (VList dependencies) ->
  step_guard results (VDict d) =
    (check_dependencies results dependencies;; Ok step_id).
Proof.
  intros Hi Hd. unfold step_guard. cbn [py_getitem]. rewrite Hi. cbn.
  cbn in Hd. injection Hd as ->. reflexivity.
Qed.

Lemma py_get_present d k x dflt :
  dict_get d k = Some x -> py_get (VDict d) k dflt = Ok x.
Proof. intros Hk. cbn. by rewrite Hk. Qed.

(** What [process] returns once the [try] block is known. *)
Lemma executor_process_try w (self : ExecutorAgent world) state :
  ctx_truthy (step_results self) (context state !! "plan") = true ->
  executor_process w self state =
    let s := try_block w self state in
    (ls_world s, set_step_results (executor_initialize self) (ls_results s),
     match ls_exit s with
     | Ok _ =>
         Ok {| messages := ls_messages s; memory := memory state;
               context := <["execution_results" := CStepResults]> (context state) |}
     | Raise e =>
         Ok {| messages := ls_messages s ++ [error_message e];
               memory := memory state; context := context state |}
     end).
Proof.
  intros Ht. unfold executor_process. cbn zeta.
  rewrite try_block_initialize. cbn [executor_initialize step_results].
  rewrite Ht. cbn [negb]. by destruct (ls_exit _).
Qed.

(** *** Order of the steps *)

(** The order of the steps, for any collaborators.  The steps run in the
    order of the list: the loop over a list is the
    loop over a prefix followed by the loop over the rest.  A step with a
    dependency that has no cached result leaves the loop where the steps
    before it had brought it: nothing of that step or of any later step runs,
    whatever the later steps are.  For a plan of a step without dependencies
    followed by a step that depends on it, run by an executor with no cached
    result, the second step is executed in the world and with the cache the
    first one left, and both results are cached and reported. *)
Theorem steps_run_in_list_order :
  (forall tools ctx w results msgs xs ys,
     run_steps tools ctx w results msgs (xs ++ ys) =
       let s := run_steps tools ctx w results msgs xs in
       match ls_exit s with
       | Raise _ => s
       | Ok _ => run_steps tools ctx (ls_world s) (ls_results s) (ls_messages s) ys
       end) /\
  (forall tools ctx w results msgs before step rest dependencies dep k,
     let s := run_steps tools ctx w results msgs before in
     ls_exit s = Ok () ->
     py_get step "dependencies" (VList []) ≫= py_iter = Ok dependencies ->
     dep ∈ dependencies -> hash_key dep = Ok k -> ls_results s !! k = None ->
     exists e,
       run_steps tools ctx w results msgs (before ++ step :: rest) =
         {| ls_world := ls_world s; ls_results := ls_results s;
            ls_messages := ls_messages s; ls_exit := Raise e |}) /\
  (forall w (self : ExecutorAgent world) state text plan_data d1 d2 i1 i2
          w1 r1 t1 w2 r2 t2,
     step_results self = ∅ ->
     context state !! "plan" = Some (CV (VStr text)) -> text <> "" ->
     json_loads text = Ok (VDict plan_data) ->
     dict_get plan_data "steps" = Some (VList [VDict d1; VDict d2]) ->
     dict_get d1 "id" = Some (VStr i1) ->
     py_get (VDict d1) "dependencies" (VList []) = Ok (VList []) ->
     dict_get d2 "id" = Some (VStr i2) ->
     dict_get d2 "dependencies" = Some (VList [VStr i1]) ->
     execute_step w (executor_tools self) ∅ (VDict d1) (context state) = (w1, Ok r1) ->
     json_dumps r1 = Ok t1 ->
     execute_step w1 (executor_tools self) {[KStr i1 := r1]} (VDict d2) (context state)
       = (w2, Ok r2) ->
     json_dumps r2 = Ok t2 ->
     executor_process w self state =
       (w2,
        set_step_results (executor_initialize self)
          (<[KStr i2 := r2]> {[KStr i1 := r1]}),
        Ok {| messages := messages state ++
                [executed_message (VStr i1) t1; executed_message (VStr i2) t2];
              memory := memory state;
              context := <["execution_results" := CStepResults]> (context state) |})).
Proof.
  split; [exact run_steps_app|]. split.
  - intros tools ctx w results msgs before step rest dependencies dep k s
      Hs Hd Hin Hk Hnone.
    rewrite run_steps_app. fold s. cbn zeta. rewrite Hs.
    assert (exists e, step_guard (ls_results s) step = Raise e) as [e He].
    { unfold step_guard. destruct (py_getitem step "id"); cbn; [|by eexists].
      rewrite Hd. cbn.
      destruct (check_dependencies_missing _ _ _ _ Hin Hk Hnone) as [e ->].
      by eexists. }
    exists e.
    erewrite run_steps_raise; [by apply step_body_guard_raise|].
    by rewrite (step_body_guard_raise _ _ _ _ _ _ _ He).
  - intros w self state text plan_data d1 d2 i1 i2 w1 r1 t1 w2 r2 t2
      Hfresh Hp Ht Hl Hs Hi1 Hd1 Hi2 Hd2 He1 Hj1 He2 Hj2.
    rewrite executor_process_try; [|rewrite Hp; by apply ctx_truthy_text].
    cbn zeta. rewrite (try_block_steps _ _ _ _ _ _ Hp Hl Hs), Hfresh.
    rewrite run_steps_cons. cbn zeta.
    erewrite (step_body_ok _ _ _ _ _ _ (VStr i1)); [| |exact He1|reflexivity|exact Hj1].
    2:{ by rewrite (step_guard_dict _ _ _ _ Hi1 Hd1). }
    cbn [ls_exit ls_world ls_results ls_messages].
    rewrite run_steps_cons. cbn zeta.
    erewrite (step_body_ok _ _ _ _ _ _ (VStr i2)); [| |exact He2|reflexivity|exact Hj2].
    2:{ rewrite (step_guard_dict _ _ _ _ Hi2 (py_get_present _ _ _ _ Hd2)).
        cbn. by rewrite lookup_insert_eq. }
    cbn [ls_exit ls_world ls_results ls_messages run_steps].
    by rewrite <- app_assoc.
Qed.

(** *** The results in the context *)

(** C1, as the code has it.  [context.execution_results] is assigned at the
    end of the [try] block: when the plan decodes and the loop goes through
    all the steps, the entry holds the cache of the executor; when the block
    is left by an exception, the context is the one [process] was given.  For
    a plan whose first step lists a dependency that has no cached result,
    [process] returns the context it was given, in the world and with the
    cache it was given. *)
Theorem execution_results_on_completion :
  (forall w (self : ExecutorAgent world) state,
     ctx_truthy (step_results self) (context state !! "plan") = true ->
     let s := try_block w self state in
     exists state',
       executor_process w self state =
         (ls_world s, set_step_results (executor_initialize self) (ls_results s),
          Ok state') /\
       match ls_exit s with
       | Ok _ =>
           context state' =
             <["execution_results" := CStepResults]> (context state)
       | Raise _ => context state' = context state
       end) /\
  (forall w (self : ExecutorAgent world) state text plan_data d rest step_id
          dependencies dep k,
     context state !! "plan" = Some (CV (VStr text)) -> text <> "" ->
     json_loads text = Ok (VDict plan_data) ->
     dict_get plan_data "steps" = Some (VList (VDict d :: rest)) ->
     dict_get d "id" = Some step_id ->
     dict_get d "dependencies" = Some (VList dependencies) ->
     dep ∈ dependencies -> hash_key dep = Ok k -> step_results self !! k = None ->
     exists state',
       executor_process w self state = (w, executor_initialize self, Ok state') /\
       context state' = context state).
Proof.
  split.
  - intros w self state Ht s. rewrite (executor_process_try _ _ _ Ht).
    cbn zeta. fold s. destruct (ls_exit s); eexists; (split; [reflexivity|done]).
  - intros w self state text plan_data d rest step_id dependencies dep k
      Hp Ht Hl Hs Hi Hd Hin Hk Hnone.
    rewrite executor_process_try; [|rewrite Hp; by apply ctx_truthy_text].
    cbn zeta. rewrite (try_block_steps _ _ _ _ _ _ Hp Hl Hs).
    destruct (check_dependencies_missing _ _ _ _ Hin Hk Hnone) as [e He].
    assert (step_guard (step_results self) (VDict d) = Raise e) as Hg.
    { rewrite (step_guard_dict _ _ _ _ Hi (py_get_present _ _ _ _ Hd)).
      by rewrite He. }
    erewrite run_steps_raise; rewrite (step_body_guard_raise _ _ _ _ _ _ _ Hg);
      [|reflexivity].
    cbn [ls_world ls_results ls_messages ls_exit].
    eexists. split; [by destruct self|]. done.
Qed.

(** *** Missing keys *)

(** C9, as the code has it.  The [steps] entry of the plan is read with the
    empty list as its default: for a plan text that decodes to an object
    without a [steps] key no step runs, no message is appended, and
    [execution_results] is bound to the cache.  The [id] of a step is read
    without a default: a step without it leaves the loop with a [KeyError]. *)
Theorem missing_steps_default w (self : ExecutorAgent world) state text plan_data :
  context state !! "plan" = Some (CV (VStr text)) -> text <> "" ->
  json_loads text = Ok (VDict plan_data) ->
  (dict_get plan_data "steps" = None ->
   executor_process w self state =
     (w, executor_initialize self,
      Ok {| messages := messages state;
            memory := memory state;
            context := <["execution_results" := CStepResults]> (context state) |})) /\
  (forall d rest,
     dict_get plan_data "steps" = Some (VList (VDict d :: rest)) ->
     dict_get d "id" = None ->
     executor_process w self state =
       (w, executor_initialize self,
        Ok {| messages := messages state ++ [error_message (KeyError "id")];
              memory := memory state;
              context := context state |})).
Proof.
  intros Hp Ht Hl. split.
  - intros Hs.
    rewrite executor_process_try; [|rewrite Hp; by apply ctx_truthy_text].
    cbn zeta. unfold try_block. rewrite Hp. cbn. rewrite Hl. cbn. rewrite Hs. cbn.
    by destruct self.
  - intros d rest Hs Hi.
    rewrite executor_process_try; [|rewrite Hp; by apply ctx_truthy_text].
    cbn zeta. rewrite (try_block_steps _ _ _ _ _ _ Hp Hl Hs).
    assert (step_guard (step_results self) (VDict d) = Raise (KeyError "id")) as Hg.
    { unfold step_guard. cbn. by rewrite Hi. }
    erewrite run_steps_raise; rewrite (step_body_guard_raise _ _ _ _ _ _ _ Hg);
      [|reflexivity].
    cbn [ls_world ls_results ls_messages ls_exit].
    by destruct self.
Qed.

(** *** Registration of tools *)

Lemma add_tools_planner (planner : PlannerAgent world) executor ts :
  planner_tools (add_tools planner executor ts).1 = planner_tools planner ++ ts.
Proof.
  revert planner executor.
  induction ts as [|t ts IH]; intros planner executor; cbn [add_tools].
  - by rewrite app_nil_r.
  - rewrite IH. cbn. by rewrite <- app_assoc.
Qed.

Lemma add_tools_executor (planner : PlannerAgent world) executor ts n :
  executor_tools (add_tools planner executor ts).2 !! n =
    match last (filter (fun t => name t = n) ts) with
    | Some t => Some t
    | None => executor_tools executor !! n
    end.
Proof.
  revert planner executor.
  induction ts as [|t ts IH]; intros planner executor; cbn [add_tools]; [done|].
  rewrite IH. cbn [executor_add_tool executor_tools].
  rewrite filter_cons. destruct (decide (name t = n)) as [Hn|Hn].
  - rewrite last_cons. destruct (last _); [done|].
    rewrite Hn. by rewrite lookup_insert_eq.
  - destruct (last _); [done|]. by rewrite lookup_insert_ne.
Qed.

(** C8, as the code has it.  The two agents keep their tools apart.  In the
    executor the later of two tools registered under one name is the one the
    lookup of that name returns.  The planner appends every registration to
    its list: after the same two registrations it lists both tools, in the
    order they were added.  The registration loop of the graph adds every
    tool to both agents, so a tool added alone through it is listed by the
    planner and returned by the lookup of the executor. *)
Theorem tool_registration :
  (forall (self : ExecutorAgent world) t1 t2,
     name t1 = name t2 ->
     tools_get (executor_tools (executor_add_tool (executor_add_tool self t1) t2))
       (VStr (name t1)) = Ok (Some t2)) /\
  (forall (self : PlannerAgent world) t1 t2,
     planner_tools (planner_add_tool (planner_add_tool self t1) t2) =
       planner_tools self ++ [t1; t2]) /\
  (forall (planner : PlannerAgent world) executor ts,
     planner_tools (add_tools planner executor ts).1 = planner_tools planner ++ ts /\
     forall n,
       tools_get (executor_tools (add_tools planner executor ts).2) (VStr n) =
         match last (filter (fun t => name t = n) ts) with
         | Some t => Ok (Some t)
         | None => tools_get (executor_tools executor) (VStr n)
         end) /\
  (forall (planner : PlannerAgent world) executor t,
     t ∈ planner_tools (add_tools planner executor [t]).1 /\
     tools_get (executor_tools (add_tools planner executor [t]).2) (VStr (name t)) =
       Ok (Some t)).
Proof.
  split; [|split; [|split]].
  - intros self t1 t2 Hn. cbn. rewrite Hn. by rewrite lookup_insert_eq.
  - intros self t1 t2. cbn. by rewrite <- app_assoc.
  - intros planner executor ts. split; [apply add_tools_planner|].
    intros n. cbn. rewrite add_tools_executor. by destruct (last _).
  - intros planner executor t. split.
    + cbn. apply elem_of_app. right. by apply list_elem_of_singleton.
    + cbn. by rewrite lookup_insert_eq.
Qed.

End Properties.

(** ** Runs

    The runs are evaluated with the prompts of the source, in the scripted
    world. *)

Section Runs.

Import Scripted.

Local Existing Instance Shipped.collaborators.

(** C3: a context with both entries, one with the results only, an empty one. *)
Lemma should_continue_priority_witness :
  should_continue
    {| graph_messages := []; graph_memory := ∅;
       graph_context := <["execution_results" := CStepResults]>
                          {["plan" := CV (VStr "{}")]};
       current_agent := "executor" |} = (true, "executor") /\
  should_continue
    {| graph_messages := []; graph_memory := ∅;
       graph_context := {["execution_results" := CStepResults]};
       current_agent := "executor" |} = (false, END) /\
  should_continue
    {| graph_messages := []; graph_memory := ∅; graph_context := ∅;
       current_agent := "" |} = (true, "planner").
Proof.
  split; [|split].
  - apply (proj1 (should_continue_priority _)). vm_compute. eauto.
  - apply (proj1 (proj2 (should_continue_priority _))); vm_compute; eauto.
  - apply (proj2 (proj2 (should_continue_priority _))); reflexivity.
Defined.

(** C2: the planner on a task, whose proposal call fails on its prompt, and
    the executor on the plan of a step with a dependency nothing provides. *)
Lemma error_propagation_asymmetry_witness :
  planner_process silent planner
    {| messages := [user_message "find it"]; memory := ∅; context := ∅ |} =
    (silent, planner_initialize planner,
     Raise (KeyError (Shipped.example_key "steps"))) /\
  exists w' self' state' echoes,
    executor_process silent executor (state_with_plan dangling_step_plan) =
      (w', self', Ok state') /\
    Forall (fun m => exists i t,
              m = <["content" := VStr ("Executed step " +:+ py_str i +:+ ":" +:+ nl
                                       +:+ t)]>
                    {["role" := VStr "assistant"]}) echoes /\
    messages state' =
      messages (state_with_plan dangling_step_plan) ++ echoes ++
        [<["content" :=
             VStr ("Error during execution: " +:+
                   exn_str (ValueError "Dependency s0 not satisfied"))]>
           {["role" := VStr "assistant"]}].
Proof.
  split.
  - apply (proj1 (error_propagation_asymmetry silent) planner
             {| messages := [user_message "find it"]; memory := ∅; context := ∅ |}
             [] (user_message "find it")); [reflexivity|].
    vm_compute. reflexivity.
  - destruct (proj2 (error_propagation_asymmetry silent) executor
                (state_with_plan dangling_step_plan))
      as (w' & self' & state' & echoes & Hrun & Hechoes & _ & Hmessages).
    exists w', self', state', echoes. split; [exact Hrun|]. split; [exact Hechoes|].
    assert (ctx_truthy (step_results executor)
              (context (state_with_plan dangling_step_plan) !! "plan") = true) as Ht
      by (vm_compute; reflexivity).
    exact (Hmessages Ht).
Defined.

(** C10: a plan bound to the empty string. *)
Lemma executor_process_falsy_plan_witness :
  executor_process two_replies executor (state_with_plan "") =
    (two_replies, executor_initialize executor, Ok (state_with_plan "")).
Proof.
  apply executor_process_falsy_plan. right. exists (VStr "").
  split; reflexivity.
Defined.

(** C1: the plan of the dangling step, and the plan without steps. *)
Lemma execution_results_on_completion_witness :
  (exists state',
     executor_process silent executor (state_with_plan dangling_step_plan) =
       (silent, executor_initialize executor, Ok state') /\
     context state' = context (state_with_plan dangling_step_plan)) /\
  (exists state',
     executor_process silent executor (state_with_plan "{}") =
       (silent, executor_initialize executor, Ok state') /\
     context state' =
       <["execution_results" := CStepResults]> (context (state_with_plan "{}"))).
Proof.
  split.
  - eapply (proj2 execution_results_on_completion silent executor
              (state_with_plan dangling_step_plan) dangling_step_plan
              [("steps", VList [step "s2" "scrape" ["s0"]])]
              [("id", VStr "s2"); ("description", VStr "a step");
               ("tool", VStr "scrape"); ("dependencies", VList [VStr "s0"]);
               ("expected_output", VStr "an answer")]
              [] (VStr "s2") [VStr "s0"] (VStr "s0") (KStr "s0"));
      try (vm_compute; reflexivity).
    + by vm_compute.
    + apply list_elem_of_singleton. reflexivity.
  - assert (ctx_truthy (step_results executor)
              (context (state_with_plan "{}") !! "plan") = true) as Ht
      by (vm_compute; reflexivity).
    destruct (proj1 execution_results_on_completion silent executor
                (state_with_plan "{}") Ht) as (state' & Hrun & Hctx).
    exists state'. split; [exact Hrun|exact Hctx].
Defined.

(** C1 as stated fails.  The dangling plan decodes and [process] returns a
    context without [execution_results]: its first step fails on its prompt.
    So it is for the plan of the dangling step alone, which decodes and is
    left by the dependency check, before any prompt is built. *)
Lemma execution_results_absent_after_abort :
  (exists state',
     json_loads dangling_plan =
       Ok (VDict [("steps", VList [step "s1" "search" []; step "s2" "scrape" ["s0"]])]) /\
     step_results executor = ∅ /\
     executor_process two_replies executor (state_with_plan dangling_plan) =
       (two_replies, executor_initialize executor, Ok state') /\
     context state' !! "execution_results" = None) /\
  (exists state',
     json_loads dangling_step_plan =
       Ok (VDict [("steps", VList [step "s2" "scrape" ["s0"]])]) /\
     executor_process two_replies executor (state_with_plan dangling_step_plan) =
       (two_replies, executor_initialize executor, Ok state') /\
     messages state' =
       messages (state_with_plan dangling_step_plan) ++
         [<["content" := VStr "Error during execution: Dependency s0 not satisfied"]>
            {["role" := VStr "assistant"]}] /\
     context state' !! "execution_results" = None).
Proof.
  split.
  - eexists. split; [vm_compute; reflexivity|]. split; [reflexivity|].
    split; vm_compute; reflexivity.
  - eexists. split; [vm_compute; reflexivity|].
    split; [vm_compute; reflexivity|]. split; vm_compute; reflexivity.
Qed.

(** C9: the text of an empty object, and a step without an id. *)
Lemma missing_steps_default_witness :
  executor_process silent executor (state_with_plan "{}") =
    (silent, executor_initialize executor,
     Ok {| messages := messages (state_with_plan "{}");
           memory := memory (state_with_plan "{}");
           context := <["execution_results" := CStepResults]>
                        (context (state_with_plan "{}")) |}) /\
  executor_process silent executor
    (state_with_plan (plan [VDict [("tool", VStr "search")]])) =
    (silent, executor_initialize executor,
     Ok {| messages := messages (state_with_plan (plan [VDict [("tool", VStr "search")]]))
                       ++ [error_message (KeyError "id")];
           memory := ∅;
           context := context (state_with_plan (plan [VDict [("tool", VStr "search")]])) |}).
Proof.
  split.
  - apply (proj1 (missing_steps_default silent executor (state_with_plan "{}") "{}" []
                    ltac:(reflexivity) ltac:(discriminate) ltac:(reflexivity))).
    reflexivity.
  - eapply (proj2 (missing_steps_default silent executor
                     (state_with_plan (plan [VDict [("tool", VStr "search")]]))
                     (plan [VDict [("tool", VStr "search")]])
                     [("steps", VList [VDict [("tool", VStr "search")]])]
                     ltac:(reflexivity) ltac:(by vm_compute)
                     ltac:(vm_compute; reflexivity)));
      reflexivity.
Defined.

(** C9 as stated fails: the text [{}] decodes to an object without [steps],
    and [process] appends no error message and sets [execution_results]. *)
Lemma missing_steps_no_error :
  json_loads "{}" = Ok (VDict []) /\
  dict_get [] "steps" = None /\
  ls_exit (try_block silent executor (state_with_plan "{}")) = Ok () /\
  exists state',
    executor_process silent executor (state_with_plan "{}") =
      (silent, executor_initialize executor, Ok state') /\
    messages state' = messages (state_with_plan "{}") /\
    context state' !! "execution_results" = Some CStepResults.
Proof.
  split; [reflexivity|]. split; [reflexivity|]. split; [reflexivity|].
  eexists. split; [vm_compute; reflexivity|]. split; reflexivity.
Qed.

(** C8: two tools named [search] registered with an executor. *)
Lemma tool_registration_witness :
  tools_get
    (executor_tools
       (executor_add_tool
          (executor_add_tool ExecutorAgent_init (constant_tool "search" (VStr "old")))
          (constant_tool "search" (VStr "new"))))
    (VStr (name (constant_tool "search" (VStr "old")))) =
    Ok (Some (constant_tool "search" (VStr "new"))).
Proof.
  apply (proj1 tool_registration). reflexivity.
Defined.

(** C8 as stated fails: two different tools named [search] registered
    through the loop of the graph.  The lookup of the executor returns the
    second, and the planner lists both: the first registration is not
    replaced there, and the two agents do not hold one registry. *)
Lemma planner_lists_both_tools :
  name (constant_tool "search" (VStr "old")) =
    name (constant_tool "search" (VStr "new")) /\
  constant_tool "search" (VStr "old") <> constant_tool "search" (VStr "new") /\
  planner_tools
    (add_tools PlannerAgent_init ExecutorAgent_init
       [constant_tool "search" (VStr "old"); constant_tool "search" (VStr "new")]).1 =
    [constant_tool "search" (VStr "old"); constant_tool "search" (VStr "new")] /\
  tools_get
    (executor_tools
       (add_tools PlannerAgent_init ExecutorAgent_init
          [constant_tool "search" (VStr "old"); constant_tool "search" (VStr "new")]).2)
    (VStr "search") = Ok (Some (constant_tool "search" (VStr "new"))).
Proof.
  split; [reflexivity|]. split.
  - intros Heq.
    apply (f_equal (fun t => (call t silent []).2)) in Heq. discriminate.
  - split; vm_compute; reflexivity.
Qed.

End Runs.

(** ** The source as it is

    With the templates of the source every proposal call fails on its
    prompt. *)

Section SourcePrompts.

Import Scripted.

Local Existing Instance Shipped.collaborators.

Lemma planning_template_raises (listing : string) :
  Shipped.filled planning_template [("tools", listing)] =
    Raise (KeyError (Shipped.example_key "steps")).
Proof. vm_compute. reflexivity. Qed.

Lemma execution_template_raises (listing previous_results : string) :
  Shipped.filled execution_template
    [("tools", listing); ("previous_results", previous_results)] =
    Raise (KeyError (Shipped.example_key "tool")).
Proof. vm_compute. reflexivity. Qed.

Lemma execution_prompt_raises tools results step ctx :
  exists e, Shipped.execution_prompt tools results step ctx = Raise e.
Proof.
  unfold Shipped.execution_prompt.
  destruct (JSON.dumps (Shipped.results_value results)) as [previous_results|e];
    cbn [mbind result_bind].
  - rewrite execution_template_raises. by eexists.
  - by eexists.
Qed.

(** No step gets past its prompt: the body of the loop leaves the world, the
    cache and the messages as they were. *)
Lemma step_body_raises tools ctx (w : world) results msgs step :
  exists e,
    step_body tools ctx w results msgs step =
      {| ls_world := w; ls_results := results; ls_messages := msgs;
         ls_exit := Raise e |}.
Proof.
  unfold step_body. destruct (step_guard results step) as [step_id|e]; [|by eexists].
  unfold execute_step, propose.
  change (create_execution_prompt tools results step ctx)
    with (Shipped.execution_prompt tools results step ctx).
  destruct (execution_prompt_raises tools results step ctx) as [e ->].
  by eexists.
Qed.

(** C6, on the source as it is.  For every planner and every state with a
    message, [process] raises the [KeyError] of [str.format] on the planning
    template: the model is not asked, no plan is stored and no message is
    appended. *)
Theorem planner_process_template_error (w : world) (self : PlannerAgent world) state :
  messages state <> [] ->
  planner_process w self state =
    (w, planner_initialize self, Raise (KeyError (Shipped.example_key "steps"))).
Proof.
  intros Hm. unfold planner_process.
  destruct (last (messages state)) as [last_message|] eqn:Hl.
  - unfold propose.
    change (create_planning_prompt (planner_tools (planner_initialize self))
              (default (VStr "") (last_message !! "content")))
      with (Shipped.planning_prompt (planner_tools (planner_initialize self))
              (default (VStr "") (last_message !! "content"))).
    unfold Shipped.planning_prompt. rewrite planning_template_raises. reflexivity.
  - by apply last_None in Hl.
Qed.

Lemma planner_process_template_error_witness :
  planner_process {| replies := [Ok chained_plan]; log := [] |} planner
    {| messages := [user_message "find it"]; memory := ∅; context := ∅ |} =
    ({| replies := [Ok chained_plan]; log := [] |}, planner_initialize planner,
     Raise (KeyError (Shipped.example_key "steps"))).
Proof. apply planner_process_template_error. discriminate. Defined.

(** C4, on the source as it is.  For every plan with a first step, the loop
    is left at that step: the world and the cache are untouched, one error
    message is appended and [execution_results] is not assigned. *)
Theorem executor_process_template_error (w : world) (self : ExecutorAgent world)
    state text plan_data step rest :
  context state !! "plan" = Some (CV (VStr text)) -> text <> "" ->
  json_loads text = Ok (VDict plan_data) ->
  dict_get plan_data "steps" = Some (VList (step :: rest)) ->
  exists e,
    executor_process w self state =
      (w, executor_initialize self,
       Ok {| messages := messages state ++ [error_message e];
             memory := memory state;
             context := context state |}).
Proof.
  intros Hp Ht Hl Hs.
  rewrite executor_process_try; [|rewrite Hp; by apply ctx_truthy_text].
  cbn zeta. rewrite (try_block_steps _ _ _ _ _ _ Hp Hl Hs).
  destruct (step_body_raises (executor_tools self) (context state) w
              (step_results self) (messages state) step) as [e He].
  exists e. erewrite run_steps_raise; rewrite He; [|reflexivity].
  cbn [ls_world ls_results ls_messages ls_exit]. by destruct self.
Qed.

Lemma executor_process_template_error_witness :
  exists e,
    executor_process two_replies executor (state_with_plan chained_plan) =
      (two_replies, executor_initialize executor,
       Ok {| messages := messages (state_with_plan chained_plan) ++ [error_message e];
             memory := memory (state_with_plan chained_plan);
             context := context (state_with_plan chained_plan) |}).
Proof.
  eapply (executor_process_template_error two_replies executor
            (state_with_plan chained_plan) chained_plan);
    [reflexivity|by vm_compute|vm_compute; reflexivity|vm_compute; reflexivity].
Defined.

(** The two chained steps on the source as it is: the first step fails on
    its prompt and nothing is cached. *)
Lemma chained_plan_template_error :
  executor_process two_replies executor (state_with_plan chained_plan) =
    (two_replies, executor_initialize executor,
     Ok {| messages := messages (state_with_plan chained_plan) ++
             [error_message (KeyError (Shipped.example_key "tool"))];
           memory := ∅;
           context := context (state_with_plan chained_plan) |}).
Proof. vm_compute. reflexivity. Qed.

(** With every step left on its prompt, no run of the loop changes the world
    or the cache. *)
Lemma run_steps_untouched tools ctx (w : world) results msgs steps :
  ls_world (run_steps tools ctx w results msgs steps) = w /\
  ls_results (run_steps tools ctx w results msgs steps) = results.
Proof.
  destruct steps as [|step rest]; [done|].
  destruct (step_body_raises tools ctx w results msgs step) as [e He].
  erewrite run_steps_raise; rewrite He; done.
Qed.

Lemma planner_process_untouched (w : world) (self : PlannerAgent world) state :
  exists r, planner_process w self state = (w, planner_initialize self, r).
Proof.
  unfold planner_process.
  destruct (last (messages state)) as [last_message|]; [|by eexists].
  unfold propose.
  change (create_planning_prompt (planner_tools (planner_initialize self))
            (default (VStr "") (last_message !! "content")))
    with (Shipped.planning_prompt (planner_tools (planner_initialize self))
            (default (VStr "") (last_message !! "content"))).
  unfold Shipped.planning_prompt. rewrite planning_template_raises. by eexists.
Qed.




(** C7, on the source as it is.  Whatever tool a step names, registered or
    not, [_execute_step] raises the [KeyError] of [str.format] on the
    execution template, in the world it was given: the model is not asked,
    no name is looked up and no tool is called; the step loop is left with
    that error at the first step that passes its dependency check. *)
Theorem execute_step_template_error (w : world) tools results step ctx
    previous_results :
  JSON.dumps (Shipped.results_value results) = Ok previous_results ->
  execute_step w tools results step ctx =
    (w, Raise (KeyError (Shipped.example_key "tool"))) /\
  forall msgs rest step_id,
    step_guard results step = Ok step_id ->
    run_steps tools ctx w results msgs (step :: rest) =
      {| ls_world := w; ls_results := results; ls_messages := msgs;
         ls_exit := Raise (KeyError (Shipped.example_key "tool")) |}.
Proof.
  intros Hd.
  assert (execute_step w tools results step ctx =
          (w, Raise (KeyError (Shipped.example_key "tool")))) as He.
  { unfold execute_step, propose.
    change (create_execution_prompt tools results step ctx)
      with (Shipped.execution_prompt tools results step ctx).
    unfold Shipped.execution_prompt. rewrite Hd. cbn [mbind result_bind].
    rewrite execution_template_raises. reflexivity. }
  split; [exact He|].
  intros msgs rest step_id Hg.
  assert (step_body tools ctx w results msgs step =
          {| ls_world := w; ls_results := results; ls_messages := msgs;
             ls_exit := Raise (KeyError (Shipped.example_key "tool")) |}) as Hb.
  { unfold step_body. by rewrite Hg, He. }
  erewrite run_steps_raise; rewrite Hb; reflexivity.
Qed.

(** A step that names [search], which is registered, and a step that names
    [browse], which is not. *)
Lemma execute_step_template_error_witness :
  tools_get (executor_tools executor) (VStr "search") =
    Ok (Some (constant_tool "search" (VStr "found"))) /\
  execute_step two_replies (executor_tools executor) ∅ (step "s1" "search" []) ∅ =
    (two_replies, Raise (KeyError (Shipped.example_key "tool"))) /\
  tools_get (executor_tools executor) (VStr "browse") = Ok None /\
  execute_step two_replies (executor_tools executor) ∅ (step "s1" "browse" []) ∅ =
    (two_replies, Raise (KeyError (Shipped.example_key "tool"))).
Proof.
  assert (JSON.dumps (Shipped.results_value ∅) = Ok "{}") as Hd
    by (vm_compute; reflexivity).
  split; [vm_compute; reflexivity|]. split.
  - exact (proj1 (execute_step_template_error two_replies (executor_tools executor) ∅
                    (step "s1" "search" []) ∅ "{}" Hd)).
  - split; [vm_compute; reflexivity|].
    exact (proj1 (execute_step_template_error two_replies (executor_tools executor) ∅
                    (step "s1" "browse" []) ∅ "{}" Hd)).
Defined.

End SourcePrompts.

(** ** More on the step loop *)

Section Loop.

Context `{Collaborators world}.

Implicit Types (w : world) (results : gmap key value) (ctx : gmap string cval).
Implicit Types (msgs : list (gmap string value)) (step : value) (steps : list value).
Implicit Types (tools : gmap string (Tool world)) (e : exn).

Lemma check_dependencies_passed results (dependencies : list value) :
  check_dependencies results dependencies = Ok () ->
  Forall (fun dep => exists k, hash_key dep = Ok k /\ is_Some (results !! k))
    dependencies.
Proof.
  induction dependencies as [|d ds IH]; [constructor|].
  cbn [check_dependencies].
  destruct (hash_key d) as [k|e] eqn:Hd; cbn; [|discriminate].
  destruct (results !! k) as [v|] eqn:Hk; [|discriminate].
  intros Hrest. constructor; [|by apply IH].
  exists k. split; [done|by eexists].
Qed.

(** X4. The dependency check passes exactly when every dependency can be hashed
    and has a cached result. *)
Theorem check_dependencies_ok_iff results (dependencies : list value) :
  check_dependencies results dependencies = Ok () <->
  Forall (fun dep => exists k, hash_key dep = Ok k /\ is_Some (results !! k))
    dependencies.
Proof.
  split; [|apply check_dependencies_present].
  induction dependencies as [|d ds IH]; [constructor|].
  cbn [check_dependencies].
  destruct (hash_key d) as [k|e] eqn:Hd; cbn; [|discriminate].
  destruct (results !! k) as [v|] eqn:Hk; [|discriminate].
  intros Hrest. constructor; [|by apply IH].
  exists k. split; [done|by eexists].
Qed.

Lemma step_guard_key results step step_id k :
  step_guard results step = Ok step_id -> hash_key step_id = Ok k ->
  step_key step = Some k.
Proof.
  unfold step_guard, step_key. intros Hg Hk.
  destruct (py_getitem step "id") as [i|e]; cbn in *; [|discriminate].
  destruct (py_get step "dependencies" (VList []) ≫= py_iter) as [ds|e];
    cbn in *; [|discriminate].
  destruct (check_dependencies results ds); cbn in *; [|discriminate].
  injection Hg as ->. by rewrite Hk.
Qed.

(** What one body does to the cache: nothing, or one entry under the key of
    its step. *)
Lemma step_body_results_cases tools ctx w results msgs step :
  ls_results (step_body tools ctx w results msgs step) = results \/
  exists k r, step_key step = Some k /\
    ls_results (step_body tools ctx w results msgs step) = <[k := r]> results.
Proof.
  unfold step_body.
  destruct (step_guard results step) as [step_id|e] eqn:Hg; [|by left].
  destruct (execute_step w tools results step ctx) as [w1 [r|e]]; [|by left].
  destruct (hash_key step_id) as [k|e] eqn:Hk; [|by left].
  right. exists k, r. split; [by eapply step_guard_key|].
  by destruct (json_dumps r).
Qed.

(** X2. Whatever way the loop ends, an entry of the cache under a key that
    is the key of none of the steps is as it was, present or absent. *)
Theorem run_steps_other_keys tools ctx w results msgs steps k :
  Forall (fun step => step_key step <> Some k) steps ->
  ls_results (run_steps tools ctx w results msgs steps) !! k = results !! k.
Proof.
  revert w results msgs.
  induction steps as [|step rest IH]; intros w results msgs Hk; [done|].
  apply Forall_cons in Hk as [Hstep Hrest].
  assert (ls_results (step_body tools ctx w results msgs step) !! k = results !! k)
    as Hb.
  { destruct (step_body_results_cases tools ctx w results msgs step)
      as [->|(k' & r & Hk' & ->)]; [done|].
    rewrite lookup_insert_ne; [done|]. intros ->. by apply Hstep. }
  rewrite run_steps_cons. cbn zeta.
  destruct (ls_exit _); [by rewrite IH|done].
Qed.

End Loop.

(** ** More on the executor *)

Section Executor.

Context `{Collaborators world}.

Implicit Types (w : world) (results : gmap key value) (ctx : gmap string cval).
Implicit Types (msgs : list (gmap string value)) (step : value) (steps : list value).
Implicit Types (tools : gmap string (Tool world)) (e : exn).

Lemma code_points_ascii (s : string) :
  Forall (fun c => (nat_of_ascii c < 128)%nat) (String.list_ascii_of_string s) ->
  code_points s = (fun c => String c EmptyString) <$> String.list_ascii_of_string s.
Proof.
  induction s as [|c s IH]; [done|]. cbn [String.list_ascii_of_string].
  intros Hall. apply Forall_cons in Hall as [Hc Hs]. specialize (IH Hs).
  cbn [code_points]. rewrite IH.
  destruct s as [|c' s']; [done|].
  cbn [String.list_ascii_of_string fmap list_fmap].
  apply Forall_cons in Hs as [Hc' _].
  assert (continuation c' = false) as ->; [|done].
  unfold continuation. apply bool_decide_eq_false_2. lia.
Qed.

Lemma chars_hash results (s : string) :
  Forall (fun c => (nat_of_ascii c < 128)%nat) (String.list_ascii_of_string s) ->
  Forall (fun dep => exists k, hash_key dep = Ok k /\ is_Some (results !! k)) (chars s) <->
  Forall (fun c => is_Some (results !! KStr (String c EmptyString)))
    (String.list_ascii_of_string s).
Proof.
  intros Hascii. unfold chars. rewrite (code_points_ascii s Hascii), <- list_fmap_compose.
  rewrite Forall_fmap. apply Forall_iff. intros c. cbn. split.
  - intros (k & Hk & Hc). by injection Hk as <-.
  - intros Hc. eexists. split; [reflexivity|done].
Qed.

(** X6. Dependencies given as a text instead of a list are taken character
    by character: for an ASCII text, the step passes its guard exactly when
    every single character of the text is, as a one-character id, a key of
    the cache. *)
Theorem step_guard_text_dependencies results d step_id (s : string) :
  dict_get d "id" = Some step_id ->
  dict_get d "dependencies" = Some (VStr s) ->
  Forall (fun c => (nat_of_ascii c < 128)%nat) (String.list_ascii_of_string s) ->
  step_guard results (VDict d) = Ok step_id <->
  Forall (fun c => is_Some (results !! KStr (String c EmptyString)))
    (String.list_ascii_of_string s).
Proof.
  intros Hi Hd Hascii.
  rewrite <- (chars_hash _ _ Hascii).
  unfold step_guard. cbn [py_getitem py_get]. rewrite Hi, Hd. cbn.
  destruct (check_dependencies results (chars s)) as [[]|e] eqn:Hc; cbn; split.
  - intros _. by apply check_dependencies_passed.
  - done.
  - discriminate.
  - intros Hall. apply check_dependencies_present in Hall. congruence.
Qed.

(** X7. [process] leaves the memory and the tools alone, keeps the messages
    it was given and only appends to them, and changes no entry of the
    context other than [execution_results]; it never raises. *)
Theorem executor_process_frame w (self : ExecutorAgent world) state :
  match executor_process w self state with
  | (_, self', Ok state') =>
      executor_tools self' = executor_tools self /\
      memory state' = memory state /\
      messages state `prefix_of` messages state' /\
      (forall k, k <> "execution_results" -> context state' !! k = context state !! k)
  | (_, _, Raise _) => False
  end.
Proof.
  unfold executor_process. cbn zeta. rewrite try_block_initialize.
  cbn [executor_initialize step_results].
  destruct (negb _); [done|].
  destruct (try_block_messages w self state) as (echoes & Hm & _).
  destruct (ls_exit (try_block w self state)).
  - split; [done|]. split; [done|]. split.
    + cbn. rewrite Hm. by apply prefix_app_r.
    + intros k Hk. cbn. by rewrite lookup_insert_ne.
  - split; [done|]. split; [done|]. split; [|done].
    cbn. rewrite Hm, <- app_assoc. by apply prefix_app_r.
Qed.

(** X10. No tool is called unless the reply of the model decodes to an object
    whose [tool] entry is the name, as a string, of a registered tool: in
    every other case [_execute_step] raises in the world the proposal call
    left. *)
Theorem no_call_without_registered_tool w tools results step ctx w1 reply :
  propose w (create_execution_prompt tools results step ctx) = (w1, reply) ->
  ~ (exists content execution_plan n tool,
       reply = Ok content /\ json_loads content = Ok execution_plan /\
       py_getitem execution_plan "tool" = Ok (VStr n) /\ tools !! n = Some tool) ->
  exists e, execute_step w tools results step ctx = (w1, Raise e).
Proof.
  intros Hp Hno. unfold execute_step. rewrite Hp.
  destruct reply as [content|e]; [|by eexists].
  destruct (json_loads content) as [execution_plan|e] eqn:Hl; cbn; [|by eexists].
  destruct (py_getitem execution_plan "tool") as [tool_name|e] eqn:Ht; cbn;
    [|by eexists].
  unfold tools_get.
  destruct (hash_key tool_name) as [k|e] eqn:Hk; cbn; [|by eexists].
  destruct tool_name as [| | |x|n| |]; cbn in Hk; try discriminate;
    try destruct (float_integer x); injection Hk as <-; try by eexists.
  destruct (tools !! n) as [tool|] eqn:Hn; [|by eexists].
  exfalso. apply Hno. by exists content, execution_plan, n, tool.
Qed.

End Executor.

(** ** More on the graph *)

Section Graph.

Context `{Collaborators world}.

Implicit Types (w : world) (state : AgentGraphState).

(** What the planner does to the context when it returns. *)
Lemma planner_process_context w (self : PlannerAgent world) (st : AgentState) w' self'
    (st' : AgentState) :
  planner_process w self st = (w', self', Ok st') ->
  (messages st = [] /\ st' = st) \/
  (messages st <> [] /\
   exists content, context st' = <["plan" := CV (VStr content)]> (context st)).
Proof.
  unfold planner_process.
  destruct (last (messages st)) as [last_message|] eqn:Hl.
  - destruct (propose _ _) as [w1 [content|e]]; [|discriminate].
    intros [= _ _ <-]. right. split; [|by eexists].
    intros Hm. by rewrite Hm in Hl.
  - intros [= _ _ <-]. left. split; [by apply last_None|done].
Qed.

(** X13. Running the executor never changes the answer of the router: the
    executor returns, and the router answers on the state it returns what it
    answered on the state it was given.  A state the router sends to the
    executor is sent to the executor again. *)
Theorem executor_keeps_route w (executor : ExecutorAgent world) state :
  match run_executor w executor state with
  | (_, _, Ok state') => should_continue state' = should_continue state
  | (_, _, Raise _) => False
  end.
Proof.
  unfold run_executor, executor_process. cbn zeta.
  destruct (ctx_truthy _ _) eqn:Ht; cbn [negb]; [|done].
  assert (is_Some (graph_context state !! "plan")) as Hplan.
  { cbn in Ht. destruct (graph_context state !! "plan"); [by eexists|done]. }
  destruct (ls_exit _); unfold should_continue; cbn.
  - rewrite lookup_insert_ne; [|done].
    by rewrite !(bool_decide_eq_true_2 _ Hplan).
  - done.
Qed.

Lemma node_run_results_need_plan state state' :
  node_run state state' -> results_need_plan state -> results_need_plan state'.
Proof.
  intros [w planner st w' planner' st' Hrun|w executor st w' executor' st' Hrun] Hinv.
  - unfold run_planner in Hrun.
    destruct (planner_process w planner (agent_state st)) as [[w1 p1] [st1|e]] eqn:Hp;
      [|discriminate].
    injection Hrun as _ _ <-.
    apply planner_process_context in Hp as [[_ ->]|[_ [content Hc]]]; [exact Hinv|].
    intros _. cbn. rewrite Hc, lookup_insert_eq. by eexists.
  - pose proof (executor_keeps_route w executor st) as Hroute.
    rewrite Hrun in Hroute.
    unfold run_executor, executor_process in Hrun. cbn zeta in Hrun.
    destruct (ctx_truthy _ _) eqn:Ht; cbn [negb] in Hrun.
    + assert (is_Some (graph_context st !! "plan")) as Hplan.
      { cbn in Ht. destruct (graph_context st !! "plan"); [by eexists|done]. }
      intros _.
      destruct (ls_exit _); injection Hrun as _ _ <-; cbn; [|done].
      by rewrite lookup_insert_ne.
    + injection Hrun as _ _ <-. exact Hinv.
Qed.

(** X14. From a state whose context has no results without a plan, such as
    the states the command line and the examples start from, no sequence of
    returns of the two nodes leads to a state on which the router stops. *)
Theorem router_never_stops state state' :
  results_need_plan state ->
  rtc node_run state state' ->
  (should_continue state').1 = true.
Proof.
  intros Hinv Hsteps.
  assert (results_need_plan state') as Hinv'.
  { induction Hsteps as [|st1 st2 st3 Hstep _ IH]; [done|].
    apply IH. by eapply node_run_results_need_plan. }
  unfold should_continue.
  destruct (bool_decide (is_Some (graph_context state' !! "plan"))) eqn:Hp; [done|].
  apply bool_decide_eq_false_1 in Hp.
  rewrite bool_decide_eq_false_2; [done|].
  intros Hr. by apply Hp, Hinv'.
Qed.

(** X17. New agents have the same tools, and the registration loop of the
    graph keeps it so: however many tools are registered through it, and in
    however many rounds, a name resolves in the executor to the last tool of
    that name the planner lists, and to none when the planner lists none. *)
Theorem add_tools_same_tools :
  same_tools (@PlannerAgent_init world) ExecutorAgent_init /\
  forall (planner : PlannerAgent world) executor ts,
    same_tools planner executor ->
    same_tools (add_tools planner executor ts).1 (add_tools planner executor ts).2.
Proof.
  split; [done|].
  intros planner executor ts Hsame n.
  rewrite add_tools_planner, add_tools_executor, filter_app, last_app, Hsame.
  by destruct (last (filter _ ts)).
Qed.

End Graph.

(** ** The prompts and the search tool *)

Section Prompts.

Import Scripted.

(** X18. [_create_planning_prompt] raises for every list of tools and every
    task: [str.format] takes the brace that opens the JSON example of the
    template for a field, and raises the [KeyError] of its name. *)
Theorem planning_prompt_always_raises (tools : list (Tool world)) (task : value) :
  Shipped.planning_prompt tools task = Raise (KeyError (Shipped.example_key "steps")).
Proof.
  unfold Shipped.planning_prompt. by rewrite planning_template_raises.
Qed.

(** X19. [_create_execution_prompt] raises for every input, and with the
    [KeyError] of [str.format] on the template as soon as the text of the
    cached results is produced. *)
Theorem execution_prompt_always_raises (tools : gmap string (Tool world))
    (results : gmap key value) (step : value) (ctx : gmap string cval) :
  (exists e, Shipped.execution_prompt tools results step ctx = Raise e) /\
  (forall previous_results,
     JSON.dumps (Shipped.results_value results) = Ok previous_results ->
     Shipped.execution_prompt tools results step ctx =
       Raise (KeyError (Shipped.example_key "tool"))).
Proof.
  unfold Shipped.execution_prompt.
  destruct (JSON.dumps (Shipped.results_value results)) as [previous_results|e];
    cbn [mbind result_bind].
  - rewrite execution_template_raises. split; [by eexists|done].
  - split; [by eexists|discriminate].
Qed.

End Prompts.

Section Search.

Context `{Collaborators world}.

Variable search_results : world -> value -> Z -> world * result value.

Implicit Types (r : value) (rs : list value) (entry : value * value * value).

Lemma format_results_entries rs (entries : list (value * value * value)) :
  Forall2 (fun r entry => has_entries r entry) rs entries ->
  format_results rs = Ok (entry_text <$> entries).
Proof.
  induction 1 as [|r entry rs entries (Ht & Hl & Hs) _ IH]; [done|].
  cbn [format_results fmap list_fmap]. unfold format_result.
  rewrite Ht. cbn. rewrite Hl. cbn. rewrite Hs. cbn. rewrite IH. reflexivity.
Qed.

Lemma format_results_first_missing good (entries : list (value * value * value))
    bad rest e :
  Forall2 (fun r entry => has_entries r entry) good entries ->
  first_missing bad e ->
  format_results (good ++ bad :: rest) = Raise e.
Proof.
  intros Hgood Hbad.
  induction Hgood as [|r entry rs es (Ht & Hl & Hs) _ IH].
  - cbn [app format_results]. unfold format_result.
    destruct Hbad as [Ht|[(title & Ht & Hl)|(title & link & Ht & Hl & Hs)]].
    + by rewrite Ht.
    + rewrite Ht. cbn. by rewrite Hl.
    + rewrite Ht. cbn. rewrite Hl. cbn. by rewrite Hs.
  - rewrite <- app_comm_cons. cbn [format_results]. unfold format_result at 1.
    rewrite Ht. cbn. rewrite Hl. cbn. rewrite Hs. cbn. by rewrite IH.
Qed.

(** X21. [WebSearchTool._run] never raises.  When the wrapper raises, the
    answer is [Error performing web search: ] followed by the text of that
    error.  When it returns a list of results that all have a title, a link
    and a snippet, the answer is their three-line texts, in the order of the
    list, separated by an empty line.  When some result lacks an entry, the
    answer is [Error performing web search: ] followed by the text of the
    error of the first entry the first such result cannot give, and nothing
    else: no text of the results before it is answered. *)
Theorem web_search_run_answers (w : world) (query : value) :
  exists w1 found answer,
    search_results w query 5 = (w1, found) /\
    web_search_run search_results w query = (w1, Ok answer) /\
    (forall e, found = Raise e ->
       answer = "Error performing web search: " +:+ exn_str e) /\
    (forall rs entries,
       found = Ok (VList rs) ->
       Forall2
         (fun r entry =>
            py_getitem r "title" = Ok entry.1.1 /\
            py_getitem r "link" = Ok entry.1.2 /\
            py_getitem r "snippet" = Ok entry.2) rs entries ->
       answer =
         String.concat (nl +:+ nl)
           ((fun entry =>
               "Title: " +:+ py_str entry.1.1 +:+ nl +:+
               "Link: " +:+ py_str entry.1.2 +:+ nl +:+
               "Snippet: " +:+ py_str entry.2 +:+ nl) <$> entries)) /\
    (forall good entries bad rest e,
       found = Ok (VList (good ++ bad :: rest)) ->
       Forall2
         (fun r entry =>
            py_getitem r "title" = Ok entry.1.1 /\
            py_getitem r "link" = Ok entry.1.2 /\
            py_getitem r "snippet" = Ok entry.2) good entries ->
       (py_getitem bad "title" = Raise e \/
        (exists title,
           py_getitem bad "title" = Ok title /\ py_getitem bad "link" = Raise e) \/
        (exists title link,
           py_getitem bad "title" = Ok title /\ py_getitem bad "link" = Ok link /\
           py_getitem bad "snippet" = Raise e)) ->
       answer = "Error performing web search: " +:+ exn_str e).
Proof.
  unfold web_search_run.
  destruct (search_results w query 5) as [w1 found] eqn:Hs.
  destruct found as [results|e0].
  - cbn [mbind result_bind].
    destruct (py_iter results ≫= _) as [t|e1] eqn:Hbody.
    + exists w1, (Ok results), t. do 2 (split; [done|]). split; [discriminate|].
      split.
      * intros rs entries [= ->] Hall. cbn in Hbody.
        rewrite (format_results_entries rs entries Hall) in Hbody.
        by injection Hbody as <-.
      * intros good entries bad rest e [= ->] Hgood Hbad. cbn in Hbody.
        rewrite (format_results_first_missing good entries bad rest e Hgood Hbad)
          in Hbody.
        discriminate.
    + exists w1, (Ok results), ("Error performing web search: " +:+ exn_str e1).
      do 2 (split; [done|]). split; [discriminate|]. split.
      * intros rs entries [= ->] Hall. cbn in Hbody.
        rewrite (format_results_entries rs entries Hall) in Hbody.
        discriminate.
      * intros good entries bad rest e [= ->] Hgood Hbad. cbn in Hbody.
        rewrite (format_results_first_missing good entries bad rest e Hgood Hbad)
          in Hbody.
        by injection Hbody as ->.
  - exists w1, (Raise e0), ("Error performing web search: " +:+ exn_str e0).
    do 2 (split; [done|]). split; [by intros e [= ->]|]. split; discriminate.
Qed.

End Search.

(** ** More runs *)

Section MoreRuns.

Import Scripted.

Local Existing Instance Shipped.collaborators.

Lemma run_steps_other_keys_witness :
  ls_results
    (run_steps (executor_tools executor) ∅ two_replies {[KStr "s0" := VStr "old"]} []
       [step "s1" "search" []; step "s2" "scrape" ["s1"]])
    !! KStr "s0" = ({[KStr "s0" := VStr "old"]} : gmap key value) !! KStr "s0".
Proof.
  apply run_steps_other_keys.
  repeat constructor; by vm_compute.
Defined.

Lemma check_dependencies_ok_iff_witness :
  check_dependencies {[KStr "s1" := VStr "found"]} [VStr "s1"] = Ok ().
Proof.
  apply check_dependencies_ok_iff. repeat constructor.
  exists (KStr "s1"). split; [reflexivity|]. vm_compute. eauto.
Defined.

Lemma step_guard_text_dependencies_witness :
  step_guard (<[KStr "b" := VStr "y"]> {[KStr "a" := VStr "x"]})
    (VDict text_dependencies_step) = Ok (VStr "s9").
Proof.
  apply (step_guard_text_dependencies _ text_dependencies_step (VStr "s9") "ab");
    [reflexivity|reflexivity|repeat constructor; vm_compute; lia|].
  repeat constructor; vm_compute; eauto.
Defined.

Lemma executor_process_frame_witness :
  match executor_process two_replies executor (state_with_plan dangling_plan) with
  | (_, self', Ok state') =>
      executor_tools self' = executor_tools executor /\
      memory state' = memory (state_with_plan dangling_plan) /\
      messages (state_with_plan dangling_plan) `prefix_of` messages state' /\
      (forall k, k <> "execution_results" ->
         context state' !! k = context (state_with_plan dangling_plan) !! k)
  | (_, _, Raise _) => False
  end.
Proof. apply executor_process_frame. Defined.

(** The proposal call of a step fails on its prompt, and no tool is called. *)
Lemma no_call_without_registered_tool_witness :
  exists e,
    execute_step (one_reply "browse") (executor_tools executor) ∅
      (step "s1" "search" []) ∅ = (one_reply "browse", Raise e).
Proof.
  apply (@no_call_without_registered_tool _ Shipped.collaborators
           (one_reply "browse") (executor_tools executor)
           ∅ (step "s1" "search" []) ∅ (one_reply "browse")
           (Raise (KeyError (Shipped.example_key "tool")))).
  - vm_compute. reflexivity.
  - intros (content & execution_plan & n & tool & Hc & _). discriminate.
Defined.

(** The executor on a state that holds the plan without steps: the results
    are bound, and the router continues with the executor. *)
Lemma router_never_stops_witness :
  exists w1 executor1 state1,
    run_executor silent executor (graph_with_plan "{}") = (w1, executor1, Ok state1) /\
    is_Some (graph_context state1 !! "execution_results") /\
    (should_continue state1).1 = true.
Proof.
  eexists _, _, _.
  split; [vm_compute; reflexivity|].
  split; [vm_compute; eauto|].
  apply (router_never_stops (graph_with_plan "{}")).
  - intros [x Hx]. discriminate.
  - eapply rtc_once.
    eapply (executor_ran silent executor (graph_with_plan "{}")).
    vm_compute. reflexivity.
Defined.

Lemma add_tools_same_tools_witness :
  same_tools
    (add_tools PlannerAgent_init ExecutorAgent_init
       [constant_tool "search" (VStr "old"); constant_tool "scrape" (VStr "scraped");
        constant_tool "search" (VStr "new")]).1
    (add_tools PlannerAgent_init ExecutorAgent_init
       [constant_tool "search" (VStr "old"); constant_tool "scrape" (VStr "scraped");
        constant_tool "search" (VStr "new")]).2.
Proof.
  apply (proj2 add_tools_same_tools). apply (proj1 add_tools_same_tools).
Defined.

Lemma execution_prompt_always_raises_witness :
  Shipped.execution_prompt (executor_tools executor) ∅ (step "s1" "search" []) ∅ =
    Raise (KeyError (Shipped.example_key "tool")).
Proof.
  apply (proj2 (execution_prompt_always_raises (executor_tools executor) ∅
                  (step "s1" "search" []) ∅) "{}").
  reflexivity.
Defined.

(** A result with its three entries followed by one without a link. *)
Lemma web_search_run_answers_witness :
  web_search_run
    (canned_search
       (Ok (VList [search_result "Rocq" "https://rocq-prover.org" "A proof assistant";
                   VDict [("title", VStr "No link")]])))
    silent (VStr "rocq") =
    (logged "search" silent,
     Ok ("Error performing web search: " +:+ exn_str (KeyError "link"))).
Proof.
  destruct (web_search_run_answers
              (canned_search
                 (Ok (VList [search_result "Rocq" "https://rocq-prover.org"
                               "A proof assistant";
                             VDict [("title", VStr "No link")]])))
              silent (VStr "rocq"))
    as (w1 & found & answer & Hfound & Hrun & _ & _ & Hbad).
  injection Hfound as <- <-.
  rewrite Hrun. f_equal. f_equal.
  apply (Hbad [search_result "Rocq" "https://rocq-prover.org" "A proof assistant"]
           [(VStr "Rocq", VStr "https://rocq-prover.org", VStr "A proof assistant")]
           (VDict [("title", VStr "No link")]) [] (KeyError "link") eq_refl).
  - repeat constructor.
  - right. left. exists (VStr "No link"). split; reflexivity.
Defined.

End MoreRuns.

(** ** Across calls *)

Section Across.

Context `{Collaborators world}.

(** X5. The error of the dependency check is that of the first dependency, in
    the order of the list, that is not cached: the [ValueError] that names
    it. *)
Theorem check_dependencies_first_missing (results : gmap key value)
    (cached : list value) dep k (rest : list value) :
  Forall (fun d => exists k', hash_key d = Ok k' /\ is_Some (results !! k')) cached ->
  hash_key dep = Ok k -> results !! k = None ->
  check_dependencies results (cached ++ dep :: rest) =
    Raise (ValueError ("Dependency " +:+ py_str dep +:+ " not satisfied")).
Proof.
  intros Hcached Hk Hnone.
  induction Hcached as [|d ds (k' & Hk' & [v Hv]) _ IH]; cbn [app check_dependencies].
  - rewrite Hk. cbn. by rewrite Hnone.
  - rewrite Hk'. cbn. by rewrite Hv.
Qed.

(** X15. Once [execution_results] is bound to the cache of the executor, it
    stays bound to it through every return of the planner and of the executor:
    what the context shows under that key is the cache as it is now, results
    of later and of aborted runs included. *)
Theorem results_stay_bound (state state' : AgentGraphState) :
  node_run state state' ->
  graph_context state !! "execution_results" = Some CStepResults ->
  graph_context state' !! "execution_results" = Some CStepResults.
Proof.
  intros [w planner st w' planner' st' Hrun|w executor st w' executor' st' Hrun] Hr.
  - unfold run_planner in Hrun.
    destruct (planner_process w planner (agent_state st)) as [[w1 p1] [st1|e]] eqn:Hp;
      [|discriminate].
    injection Hrun as _ _ <-.
    apply planner_process_context in Hp as [[_ ->]|[_ [content Hc]]]; [exact Hr|].
    cbn. rewrite Hc. by rewrite lookup_insert_ne.
  - unfold run_executor, executor_process in Hrun. cbn zeta in Hrun.
    destruct (negb _); [injection Hrun as _ _ <-; exact Hr|].
    destruct (ls_exit _); injection Hrun as _ _ <-; cbn; [|exact Hr].
    by rewrite lookup_insert_eq.
Qed.

End Across.

(** ** The agents with the prompts of the source *)

Section SourceAgents.

Import Scripted.

Local Existing Instance Shipped.collaborators.

(** X20. With the prompts of the source neither agent reaches the model or a
    tool: for every agent and every state, [process] hands back the world it
    was given, and the executor its cache. *)
Theorem source_agents_reach_nothing (w : world) :
  (forall (self : PlannerAgent world) state,
     exists r, planner_process w self state = (w, planner_initialize self, r)) /\
  (forall (self : ExecutorAgent world) state,
     exists r, executor_process w self state = (w, executor_initialize self, r)).
Proof.
  split.
  - intros self state. destruct (decide (messages state = [])) as [Hm|Hm].
    + exists (Ok state). unfold planner_process. by rewrite Hm.
    + apply planner_process_untouched.
  - intros self state. unfold executor_process. cbn zeta.
    destruct (negb _); [by eexists|].
    rewrite try_block_initialize.
    assert (ls_world (try_block w self state) = w /\
            ls_results (try_block w self state) = step_results self) as [Hw Hr].
    { unfold try_block. destruct (_ ≫= _) as [steps|e]; [|done].
      apply run_steps_untouched. }
    rewrite Hw, Hr.
    destruct (ls_exit _); eexists; by destruct self.
Qed.

End SourceAgents.

Section AcrossRuns.

Import Scripted.

Local Existing Instance Shipped.collaborators.

Lemma check_dependencies_first_missing_witness :
  check_dependencies {[KStr "s1" := VStr "found"]}
    ([VStr "s1"] ++ VStr "s0" :: [VStr "s7"]) =
    Raise (ValueError ("Dependency " +:+ py_str (VStr "s0") +:+ " not satisfied")).
Proof.
  apply (check_dependencies_first_missing _ [VStr "s1"] (VStr "s0") (KStr "s0"));
    [|reflexivity|reflexivity].
  repeat constructor. exists (KStr "s1"). split; [reflexivity|]. vm_compute. eauto.
Defined.

(** A state whose results are bound, given to an executor that holds a
    result of an earlier run, on a plan that is left at its first step. *)
Lemma results_stay_bound_witness :
  exists state',
    run_executor two_replies
      (set_step_results executor {[KStr "s9" := VStr "stale"]})
      {| graph_messages := []; graph_memory := ∅;
         graph_context := <["execution_results" := CStepResults]>
                            {["plan" := CV (VStr dangling_plan)]};
         current_agent := "executor" |} =
      (two_replies,
       executor_initialize (set_step_results executor {[KStr "s9" := VStr "stale"]}),
       Ok state') /\
    graph_context state' !! "execution_results" = Some CStepResults.
Proof.
  eexists. split; [vm_compute; reflexivity|].
  eapply (results_stay_bound
            {| graph_messages := []; graph_memory := ∅;
               graph_context := <["execution_results" := CStepResults]>
                                  {["plan" := CV (VStr dangling_plan)]};
               current_agent := "executor" |}).
  - eapply (executor_ran two_replies
              (set_step_results executor {[KStr "s9" := VStr "stale"]})).
    vm_compute. reflexivity.
  - reflexivity.
Defined.

End AcrossRuns.
